(** * A shallow embedding of the aistudio_requests request generators

    Modules covered:
    - [aistudio_requests/schemas.py]: [AzureAIMessage], [AzureAIRequest] and its
      field validators [validate_stop_words] and [validate_max_completion];
    - [__base.py]: [BaseGenerator.__init__], [_request_url], [_stream_url];
    - [aistudio_requests/generate.py]: [PromptGenerator.send_request] and
      [FunctionCallingGenerator] (the [functions] property and [send_request]).

    Python values that cross the wire are JSON values ([json]); Python [str]
    values are byte strings (UTF-8 for non-ASCII text).  The HTTP client is
    a scripted mock: a list of outcomes, one consumed per HTTP request. *)

From Stdlib Require Import String Ascii List ZArith Bool Lia.
From Stdlib Require Import QArith Reals.
Import ListNotations.
Open Scope Z_scope.
Set Warnings "-register-all".

(* ------------------------------------------------------------------------ *)
(** ** Python values: JSON data and raised exceptions *)

Inductive json : Type :=
| JNull
| JBool (b : bool)
| JInt (z : Z)
| JFloat (lexeme : string)   (** a Python float, kept as its JSON lexeme *)
| JStr (s : string)
| JList (l : list json)
| JDict (kvs : list (string * json)).

(** The exceptions the modelled code can raise. *)
Inductive pyexc : Type :=
| ValidationError (fields : list string)  (** pydantic, with the failing fields *)
| AttributeError
| IndexError
| KeyError
| TypeError
| JSONDecodeError
| HTTPStatusError (status : Z)
| TimeoutException
| MockExhausted  (** the scripted transport has no outcome left *)
| ValueError.

Inductive res (A : Type) : Type :=
| Ok (a : A)
| Raise (e : pyexc).
Arguments Ok {A} a.
Arguments Raise {A} e.

(** [d.get(k, default)] on a dict with string keys. *)
Fixpoint dict_lookup (k : string) (kvs : list (string * json)) : option json :=
  match kvs with
  | [] => None
  | (k', v) :: t => if String.eqb k k' then Some v else dict_lookup k t
  end.

(** [d[k] = v]: replaces in place when the key exists, appends otherwise. *)
Fixpoint dict_set (k : string) (v : json) (kvs : list (string * json))
  : list (string * json) :=
  match kvs with
  | [] => [(k, v)]
  | (k', v') :: t => if String.eqb k k' then (k, v) :: t else (k', v') :: dict_set k v t
  end.

(** [x.get(k, default)]: only dicts have a [get] method. *)
Definition py_get (x : json) (k : string) (default : json) : res json :=
  match x with
  | JDict kvs =>
      match dict_lookup k kvs with
      | Some v => Ok v
      | None => Ok default
      end
  | _ => Raise AttributeError
  end.

(** [x[0]]: lists and strings are indexed, a dict is looked up with the int
    key [0] (never one of its string keys), other values are not subscriptable. *)
Definition py_index0 (x : json) : res json :=
  match x with
  | JList (v :: _) => Ok v
  | JList [] => Raise IndexError
  | JStr (String c _) => Ok (JStr (String c EmptyString))
  | JStr EmptyString => Raise IndexError
  | JDict _ => Raise KeyError
  | _ => Raise TypeError
  end.

Definition bind_res {A B} (m : res A) (k : A -> res B) : res B :=
  match m with
  | Ok a => k a
  | Raise e => Raise e
  end.

Notation "x <- m ;; k" := (bind_res m (fun x => k))
  (at level 61, m at next level, right associativity).

(* ------------------------------------------------------------------------ *)
(** ** [json.loads] (CPython's C scanner, strict mode)

    Non-ASCII text is kept as its UTF-8 bytes; a [\uXXXX] escape is written
    out in UTF-8 (a lone surrogate in the 3-byte form), a surrogate pair is
    joined first, as [scanstring_unicode] does. *)

Definition byte (c : ascii) : nat := nat_of_ascii c.
Definition chr (n : Z) : ascii := ascii_of_nat (Z.to_nat n).

Definition is_ws (c : ascii) : bool :=
  (byte c =? 32)%nat || (byte c =? 9)%nat || (byte c =? 10)%nat || (byte c =? 13)%nat.

Definition is_digit (c : ascii) : bool := (48 <=? byte c)%nat && (byte c <=? 57)%nat.

Fixpoint skip_ws (s : string) : string :=
  match s with
  | String c r => if is_ws c then skip_ws r else s
  | EmptyString => EmptyString
  end.

Definition hex_val (c : ascii) : option Z :=
  let n := Z.of_nat (byte c) in
  if (48 <=? n) && (n <=? 57) then Some (n - 48)
  else if (97 <=? n) && (n <=? 102) then Some (n - 87)
  else if (65 <=? n) && (n <=? 70) then Some (n - 55)
  else None.

Definition hex4 (a b c d : ascii) : option Z :=
  match hex_val a, hex_val b, hex_val c, hex_val d with
  | Some x, Some y, Some z, Some w => Some (((x * 16 + y) * 16 + z) * 16 + w)
  | _, _, _, _ => None
  end.

Definition utf8 (u : Z) : string :=
  if u <? 128 then String (chr u) EmptyString
  else if u <? 2048 then
    String (chr (192 + u / 64)) (String (chr (128 + u mod 64)) EmptyString)
  else if u <? 65536 then
    String (chr (224 + u / 4096))
      (String (chr (128 + (u / 64) mod 64)) (String (chr (128 + u mod 64)) EmptyString))
  else
    String (chr (240 + u / 262144))
      (String (chr (128 + (u / 4096) mod 64))
        (String (chr (128 + (u / 64) mod 64)) (String (chr (128 + u mod 64)) EmptyString))).

Definition is_high_surrogate (u : Z) : bool := (55296 <=? u) && (u <=? 56319).
Definition is_low_surrogate (u : Z) : bool := (56320 <=? u) && (u <=? 57343).
Definition join_surrogates (hi lo : Z) : Z := 65536 + (hi - 55296) * 1024 + (lo - 56320).

(** [scanstring]: the input starts after the opening quote; returns the
    decoded text and what follows the closing quote. *)
Fixpoint scanstring (s : string) : option (string * string) :=
  match s with
  | EmptyString => None
  | String c r =>
      if (byte c =? 34)%nat then Some (EmptyString, r)
      else if (byte c =? 92)%nat then
        match r with
        | String "u"%char (String h1 (String h2 (String h3 (String h4 r2)))) =>
            match hex4 h1 h2 h3 h4 with
            | None => None
            | Some u =>
                let single :=
                  match scanstring r2 with
                  | Some (t, rest) => Some (utf8 u ++ t, rest)%string
                  | None => None
                  end in
                if is_high_surrogate u then
                  match r2 with
                  | String "\"%char (String "u"%char (String k1 (String k2 (String k3 (String k4 r3))))) =>
                      match hex4 k1 k2 k3 k4 with
                      | None => None
                      | Some u2 =>
                          if is_low_surrogate u2 then
                            match scanstring r3 with
                            | Some (t, rest) => Some (utf8 (join_surrogates u u2) ++ t, rest)%string
                            | None => None
                            end
                          else single
                      end
                  | _ => single
                  end
                else single
            end
        | String e r1 =>
            let esc :=
              if (byte e =? 34)%nat then Some e
              else if (byte e =? 92)%nat then Some e
              else if (byte e =? 47)%nat then Some e
              else if (byte e =? 98)%nat then Some (chr 8)
              else if (byte e =? 102)%nat then Some (chr 12)
              else if (byte e =? 110)%nat then Some (chr 10)
              else if (byte e =? 114)%nat then Some (chr 13)
              else if (byte e =? 116)%nat then Some (chr 9)
              else None in
            match esc with
            | Some d =>
                match scanstring r1 with
                | Some (t, rest) => Some (String d t, rest)
                | None => None
                end
            | None => None
            end
        | EmptyString => None
        end
      else if (byte c <? 32)%nat then None
      else
        match scanstring r with
        | Some (t, rest) => Some (String c t, rest)
        | None => None
        end
  end.

Fixpoint span_digits (s : string) : string * string :=
  match s with
  | String c r =>
      if is_digit c then let (d, t) := span_digits r in (String c d, t)
      else (EmptyString, s)
  | EmptyString => (EmptyString, EmptyString)
  end.

Fixpoint digits_value (acc : Z) (s : string) : Z :=
  match s with
  | String c r => digits_value (acc * 10 + (Z.of_nat (byte c) - 48)) r
  | EmptyString => acc
  end.

(** [_match_number_unicode]: an int unless a fraction or an exponent follows. *)
Definition match_number (s : string) : option (json * string) :=
  let '(neg, s1) :=
    match s with
    | String "-"%char r => (true, r)
    | _ => (false, s)
    end in
  let int_part :=
    match s1 with
    | String "0"%char r => Some (String "0"%char EmptyString, r)
    | String c r =>
        if is_digit c then let (d, t) := span_digits r in Some (String c d, t) else None
    | EmptyString => None
    end in
  match int_part with
  | None => None
  | Some (digits, s2) =>
      let '(frac, s3) :=
        match s2 with
        | String "."%char (String c r) =>
            if is_digit c then let (d, t) := span_digits r in
              (String "."%char (String c d), t)
            else (EmptyString, s2)
        | _ => (EmptyString, s2)
        end in
      let '(expo, s4) :=
        match s3 with
        | String e r =>
            if (byte e =? 101)%nat || (byte e =? 69)%nat then
              let '(sign, r1) :=
                match r with
                | String "+"%char r' => (String "+"%char EmptyString, r')
                | String "-"%char r' => (String "-"%char EmptyString, r')
                | _ => (EmptyString, r)
                end in
              let (d, t) := span_digits r1 in
              match d with
              | EmptyString => (EmptyString, s3)
              | _ => (String e (sign ++ d)%string, t)
              end
            else (EmptyString, s3)
        | EmptyString => (EmptyString, s3)
        end in
      match frac, expo with
      | EmptyString, EmptyString =>
          let v := digits_value 0 digits in
          Some (JInt (if neg then - v else v), s4)
      | _, _ =>
          Some (JFloat ((if neg then "-" else EmptyString) ++ digits ++ frac ++ expo)%string, s4)
      end
  end.

(** [scan_once]: one JSON value at the head of the input. *)
Fixpoint scan_once (fuel : nat) (s : string) {struct fuel} : option (json * string) :=
  match fuel with
  | O => None
  | S f =>
      match s with
      | String q r =>
          if (byte q =? 34)%nat then
            match scanstring r with
            | Some (t, rest) => Some (JStr t, rest)
            | None => None
            end
          else scan_tail f s
      | EmptyString => None
      end
  end
(** The remaining cases of [scan_once], after the string case. *)
with scan_tail (fuel : nat) (s : string) {struct fuel} : option (json * string) :=
  match fuel with
  | O => None
  | S f =>
      match s with
      | String "{"%char r =>
          match skip_ws r with
          | String "}"%char t => Some (JDict [], t)
          | r' => parse_members f r' []
          end
      | String "["%char r =>
          match skip_ws r with
          | String "]"%char t => Some (JList [], t)
          | r' => parse_elems f r' []
          end
      | String "n"%char (String "u"%char (String "l"%char (String "l"%char r))) => Some (JNull, r)
      | String "t"%char (String "r"%char (String "u"%char (String "e"%char r))) => Some (JBool true, r)
      | String "f"%char (String "a"%char (String "l"%char (String "s"%char (String "e"%char r)))) =>
          Some (JBool false, r)
      | String "N"%char (String "a"%char (String "N"%char r)) => Some (JFloat "NaN", r)
      | String "I"%char (String "n"%char (String "f"%char (String "i"%char (String "n"%char
          (String "i"%char (String "t"%char (String "y"%char r))))))) => Some (JFloat "Infinity", r)
      | String "-"%char (String "I"%char (String "n"%char (String "f"%char (String "i"%char
          (String "n"%char (String "i"%char (String "t"%char (String "y"%char r)))))))) =>
          Some (JFloat "-Infinity", r)
      | _ => match_number s
      end
  end
(** [_parse_object]: from a key's opening quote; later duplicate keys win. *)
with parse_members (fuel : nat) (s : string) (acc : list (string * json)) {struct fuel}
  : option (json * string) :=
  match fuel with
  | O => None
  | S f =>
      match s with
      | String q r =>
          if negb (byte q =? 34)%nat then None else
          match scanstring r with
          | None => None
          | Some (k, r1) =>
              match skip_ws r1 with
              | String ":"%char r2 =>
                  match scan_once f (skip_ws r2) with
                  | None => None
                  | Some (v, r3) =>
                      let acc' := dict_set k v acc in
                      match skip_ws r3 with
                      | String "}"%char r4 => Some (JDict acc', r4)
                      | String ","%char r4 => parse_members f (skip_ws r4) acc'
                      | _ => None
                      end
                  end
              | _ => None
              end
          end
      | EmptyString => None
      end
  end
(** [_parse_array]: from the first element. *)
with parse_elems (fuel : nat) (s : string) (acc : list json) {struct fuel}
  : option (json * string) :=
  match fuel with
  | O => None
  | S f =>
      match scan_once f s with
      | None => None
      | Some (v, r) =>
          match skip_ws r with
          | String "]"%char t => Some (JList (rev (v :: acc)), t)
          | String ","%char t => parse_elems f (skip_ws t) (v :: acc)
          | _ => None
          end
      end
  end.

(** [json.loads(s)] for a [str]: a leading byte-order mark, no value, or
    extra data after the value is a [JSONDecodeError]. *)
Definition starts_with_bom (s : string) : bool :=
  match s with
  | String a (String b (String c _)) =>
      (byte a =? 239)%nat && (byte b =? 187)%nat && (byte c =? 191)%nat
  | _ => false
  end.

Definition loads_str (s : string) : res json :=
  if starts_with_bom s then Raise JSONDecodeError
  else
    match scan_once (4 * String.length s + 4) (skip_ws s) with
    | Some (v, rest) =>
        match skip_ws rest with
        | EmptyString => Ok v
        | _ => Raise JSONDecodeError
        end
    | None => Raise JSONDecodeError
    end.

(** [json.loads(x)]: only a [str] is decoded, any other value is a [TypeError]. *)
Definition json_loads (x : json) : res json :=
  match x with
  | JStr s => loads_str s
  | _ => Raise TypeError
  end.


(* ------------------------------------------------------------------------ *)
(** ** [aistudio_requests/schemas.py] *)

(** [AzureAIMessage]: [role] is the literal ["system"] or ["user"]; [content]
    is a list of dicts such as [{"type": "text", "text": ...}]. *)
Inductive Role := RoleSystem | RoleUser.

Record AzureAIMessage := mkAzureAIMessage {
  role : Role;
  content : list json
}.

Record AzureDataSource := mkAzureDataSource {
  ds_type : string;
  ds_parameters : list (string * json)
}.

Record AzureAIFunction := mkAzureAIFunction {
  fn_name : string;
  fn_description : option string;
  fn_parameters : list (string * json)
}.

Record AzureAITool := mkAzureAITool {
  tool_type : string;
  tool_function : AzureAIFunction
}.

Inductive ResponseFormat := FormatText | FormatJsonObject.

(** The keyword arguments [**parameters] given to [AzureAIRequest]: [None]
    when the key is not in the map.  Python floats are rationals here.  Only
    the sampling fields are modelled: a [tools] or [messages] key in the map
    (forwarded by [**parameters], or a duplicate keyword next to the
    explicit ones) is outside this model. *)
Record Parameters := mkParameters {
  p_temperature : option Q;
  p_top_p : option Q;
  p_n : option Z;
  p_user : option string;
  p_max_tokens : option Z;
  p_stream : option bool;
  p_presence_penalty : option Q;
  p_frequency_penalty : option Q;
  p_stop : option (list string);
  p_logit_bias : option (list (string * Q));
  p_response_format : option ResponseFormat;
  p_dataSources : option (list AzureDataSource);
  p_seed : option Z
}.

Definition no_parameters : Parameters :=
  mkParameters None None None None None None None None None None None None None.

Definition with_n (n : Z) (p : Parameters) : Parameters :=
  mkParameters (p_temperature p) (p_top_p p) (Some n) (p_user p) (p_max_tokens p)
    (p_stream p) (p_presence_penalty p) (p_frequency_penalty p) (p_stop p)
    (p_logit_bias p) (p_response_format p) (p_dataSources p) (p_seed p).

Definition with_stop (stop : list string) (p : Parameters) : Parameters :=
  mkParameters (p_temperature p) (p_top_p p) (p_n p) (p_user p) (p_max_tokens p)
    (p_stream p) (p_presence_penalty p) (p_frequency_penalty p) (Some stop)
    (p_logit_bias p) (p_response_format p) (p_dataSources p) (p_seed p).

(** The validated model, with its defaults filled in. *)
Record AzureAIRequest := mkAzureAIRequest {
  messages : list AzureAIMessage;
  temperature : option Q;
  top_p : option Q;
  n : option Z;
  user : option string;
  max_tokens : Z;
  stream : bool;
  presence_penalty : option Q;
  frequency_penalty : option Q;
  stop : option (list string);
  logit_bias : option (list (string * Q));
  response_format : ResponseFormat;
  dataSources : option (list AzureDataSource);
  seed : option Z;
  tools : option (list AzureAITool)
}.

(** Python's [list(range(a, b))]. *)
Definition py_range (a b : Z) : list Z :=
  map (fun k => a + Z.of_nat k) (seq 0 (Z.to_nat (b - a))).

(** [validate_stop_words]: [len(value) > 4] raises [ValueError]. *)
Definition validate_stop_words (value : list string) : bool :=
  negb (4 <? Z.of_nat (List.length value)).

(** [validate_max_completion]: [not value in list(range(1, 128))] raises. *)
Definition validate_max_completion (value : Z) : bool :=
  existsb (Z.eqb value) (py_range 1 128).

(** The fields whose validator rejects the given value, in the order pydantic
    reports them (field declaration order: [n] before [stop]).  Validators
    run only on keys that were given. *)
Definition validation_errors (p : Parameters) : list string :=
  (match p_n p with
   | Some v => if validate_max_completion v then [] else ["n"%string]
   | None => []
   end) ++
  (match p_stop p with
   | Some v => if validate_stop_words v then [] else ["stop"%string]
   | None => []
   end).

(** [AzureAIRequest(messages=messages, tools=tools, **parameters)]. *)
Definition build_request (msgs : list AzureAIMessage) (tls : option (list AzureAITool))
    (p : Parameters) : res AzureAIRequest :=
  match validation_errors p with
  | [] =>
      Ok (mkAzureAIRequest msgs (p_temperature p) (p_top_p p) (p_n p) (p_user p)
            (match p_max_tokens p with Some m => m | None => 4096 end)
            (match p_stream p with Some b => b | None => false end)
            (p_presence_penalty p) (p_frequency_penalty p) (p_stop p) (p_logit_bias p)
            (match p_response_format p with Some f => f | None => FormatText end)
            (p_dataSources p) (p_seed p) tls)
  | errs => Raise (ValidationError errs)
  end.

(* ------------------------------------------------------------------------ *)
(** ** [prompts.py] and [string.Template.safe_substitute] *)

Definition nl : string := String (ascii_of_nat 10) EmptyString.

Definition DEFAULT_SYSTEM_MESSAGE : string :=
  nl ++ "    You are a intelligent assistant." ++ nl ++ nl ++
  "    In your prompts, you will receive semantic requests to process." ++ nl ++ nl ++
  "    Your role is to understand what the user asks and rationalize over it." ++ nl ++ nl ++
  "    if a function is passed in the prompt, you should call it and return the result."
  ++ nl ++ nl.

Definition is_ident_start (c : ascii) : bool :=
  let b := byte c in
  (b =? 95)%nat || ((65 <=? b)%nat && (b <=? 90)%nat) || ((97 <=? b)%nat && (b <=? 122)%nat).

Definition is_ident_char (c : ascii) : bool := is_ident_start c || is_digit c.

Fixpoint span_ident (s : string) : string * string :=
  match s with
  | String c r =>
      if is_ident_char c then let (d, t) := span_ident r in (String c d, t)
      else (EmptyString, s)
  | EmptyString => (EmptyString, EmptyString)
  end.

(** [Template(s).safe_substitute(key=value)]: [$$] is a dollar, [$key] and
    [${key}] are replaced, any other placeholder is left as written. *)
Fixpoint safe_substitute_go (fuel : nat) (key value s : string) : string :=
  match fuel with
  | O => s
  | S f =>
      match s with
      | String "$"%char r =>
          match r with
          | String "$"%char r' => String "$"%char (safe_substitute_go f key value r')
          | String "{"%char r' =>
              match span_ident r' with
              | (String c id, String "}"%char t) =>
                  if is_ident_start c then
                    (if String.eqb (String c id) key then value
                     else "${" ++ String c id ++ "}") ++ safe_substitute_go f key value t
                  else String "$"%char (safe_substitute_go f key value r)
              | _ => String "$"%char (safe_substitute_go f key value r)
              end
          | _ =>
              match span_ident r with
              | (String c id, t) =>
                  if is_ident_start c then
                    (if String.eqb (String c id) key then value else String "$"%char (String c id))
                    ++ safe_substitute_go f key value t
                  else String "$"%char (safe_substitute_go f key value r)
              | _ => String "$"%char (safe_substitute_go f key value r)
              end
          end
      | String c r => String c (safe_substitute_go f key value r)
      | EmptyString => EmptyString
      end
  end.

Definition safe_substitute (s key value : string) : string :=
  safe_substitute_go (String.length s) key value s.

(* ------------------------------------------------------------------------ *)
(** ** Generator state, the scripted transport and the state monad *)

(** The mutable attributes of a generator instance ([_functions] belongs to
    [FunctionCallingGenerator] only). *)
Record generator := mkGenerator {
  aistudio_url : string;
  aistudio_key : string;
  system_message : string;
  waiting_time : Z;
  functions_attr : option (list AzureAIFunction)
}.

(** [BaseGenerator.__init__] followed by [FunctionCallingGenerator.__init__]. *)
Definition new_generator (url key : string) : generator :=
  mkGenerator url key DEFAULT_SYSTEM_MESSAGE 1 None.

Definition set_waiting_time (w : Z) (g : generator) : generator :=
  mkGenerator (aistudio_url g) (aistudio_key g) (system_message g) w (functions_attr g).

Definition set_system_message (m : string) (g : generator) : generator :=
  mkGenerator (aistudio_url g) (aistudio_key g) m (waiting_time g) (functions_attr g).

(** The [functions] setter and deleter. *)
Definition set_functions (fs : list AzureAIFunction) (g : generator) : generator :=
  mkGenerator (aistudio_url g) (aistudio_key g) (system_message g) (waiting_time g) (Some fs).

Definition del_functions (g : generator) : generator :=
  mkGenerator (aistudio_url g) (aistudio_key g) (system_message g) (waiting_time g) None.

(** What the mocked HTTP client does on one request: a [NetworkError]
    (connection refused, reset, ...), a timeout, or a response whose
    [.json()] is [body]. *)
Inductive outcome :=
| ONetworkError
| OTimeout
| OResponse (status : Z) (body : json).

(** The three sleeps of the retry policy; [SleepThrottle w] is
    [asyncio.sleep(w ** 1.5)] with [w] the [waiting_time] at that moment. *)
Inductive sleep_kind :=
| SleepNetwork
| SleepUnavailable
| SleepThrottle (w : Z).

Definition sleep_seconds (k : sleep_kind) : R :=
  match k with
  | SleepNetwork => (1 / 2)%R
  | SleepUnavailable => 60%R
  | SleepThrottle w => sqrt (IZR (w ^ 3))
  end.

(** Observable effects: a request object built, an HTTP request issued, a sleep. *)
Inductive event :=
| EBuild (req : AzureAIRequest)
| ERequest
| ESleep (k : sleep_kind).

Record world := mkWorld {
  w_gen : generator;
  w_log : list event;
  w_script : list outcome
}.

(** [httpx.Response.raise_for_status] passes exactly the 2xx statuses. *)
Definition is_success (status : Z) : bool := (200 <=? status) && (status <? 300).

(** [BaseGenerator._request_url]: one scripted outcome per HTTP request. *)
Fixpoint request_go (sc : list outcome) (g : generator) (lg : list event) : res json * world :=
  match sc with
  | [] => (Raise MockExhausted, mkWorld g lg [])
  | o :: sc' =>
      let lg1 := lg ++ [ERequest] in
      match o with
      | ONetworkError => request_go sc' g (lg1 ++ [ESleep SleepNetwork])
      | OTimeout => (Raise TimeoutException, mkWorld g lg1 sc')
      | OResponse status body =>
          if is_success status then (Ok body, mkWorld (set_waiting_time 0 g) lg1 sc')
          else if status =? 503 then
            request_go sc' (set_waiting_time (waiting_time g + 1) g)
              (lg1 ++ [ESleep SleepUnavailable])
          else if status =? 429 then
            request_go sc' (set_waiting_time (waiting_time g + 1) g)
              (lg1 ++ [ESleep (SleepThrottle (waiting_time g))])
          else (Raise (HTTPStatusError status), mkWorld g lg1 sc')
      end
  end.

Definition M (A : Type) : Type := world -> res A * world.

Definition retM {A} (a : A) : M A := fun w => (Ok a, w).
Definition raiseM {A} (e : pyexc) : M A := fun w => (Raise e, w).
Definition liftM {A} (r : res A) : M A := fun w => (r, w).
Definition bindM {A B} (m : M A) (k : A -> M B) : M B :=
  fun w =>
    match m w with
    | (Ok a, w') => k a w'
    | (Raise e, w') => (Raise e, w')
    end.
Definition get_gen : M generator := fun w => (Ok (w_gen w), w).
Definition put_gen (g : generator) : M unit :=
  fun w => (Ok tt, mkWorld g (w_log w) (w_script w)).
Definition emit (e : event) : M unit :=
  fun w => (Ok tt, mkWorld (w_gen w) (w_log w ++ [e]) (w_script w)).

Notation "'let*' x := m 'in' k" := (bindM m (fun x => k))
  (at level 200, x name, m at level 100, k at level 200).

Definition request_url : M json := fun w => request_go (w_script w) (w_gen w) (w_log w).

(* ------------------------------------------------------------------------ *)
(** ** [BaseGenerator._stream_url] *)

(** What the mocked client does on [http_client.stream(...)]: a
    [NetworkError] or a timeout when opening, or a response with [status]
    whose body yields [chunks] and then possibly fails mid-flight. *)
Inductive stream_fault := FaultNetwork | FaultTimeout.

Inductive stream_outcome :=
| SNetworkError
| STimeout
| SResponse (status : Z) (chunks : list string) (fault : option stream_fault).

(** An element yielded by the async generator: a text chunk, or the object
    [self._stream_url(url, method, data)] itself, an async generator that
    has not been started. *)
Inductive stream_item :=
| Chunk (text : string)
| RetryStream.

(** One run of [_stream_url] to its end: the yielded elements, the escaping
    exception if any, and the generator state and log afterwards.  A
    [yield self._stream_url(...)] yields a new generator object and ends
    this one; nothing of the new one runs. *)
Definition stream_url (o : stream_outcome) (g : generator) (lg : list event)
  : list stream_item * option pyexc * generator * list event :=
  let lg1 := lg ++ [ERequest] in
  match o with
  | SNetworkError => ([RetryStream], None, g, lg1 ++ [ESleep SleepNetwork])
  | STimeout => ([], Some TimeoutException, g, lg1)
  | SResponse status chunks fault =>
      (* [self.waiting_time = 0] runs before [raise_for_status()] *)
      let g0 := set_waiting_time 0 g in
      if is_success status then
        let items := map Chunk chunks in
        match fault with
        | None => (items, None, g0, lg1)
        | Some FaultNetwork => (items ++ [RetryStream], None, g0, lg1 ++ [ESleep SleepNetwork])
        | Some FaultTimeout => (items, Some TimeoutException, g0, lg1)
        end
      else if status =? 503 then
        ([RetryStream], None, set_waiting_time (waiting_time g0 + 1) g0,
         lg1 ++ [ESleep SleepUnavailable])
      else if status =? 429 then
        ([RetryStream], None, set_waiting_time (waiting_time g0 + 1) g0,
         lg1 ++ [ESleep (SleepThrottle (waiting_time g0))])
      else ([], Some (HTTPStatusError status), g0, lg1)
  end.

Definition is_chunk (i : stream_item) : bool :=
  match i with Chunk _ => true | RetryStream => false end.

(* ------------------------------------------------------------------------ *)
(** ** [aistudio_requests/generate.py] *)

Definition text_block (t : string) : json :=
  JDict [("type"%string, JStr "text"); ("text"%string, JStr t)].

Definition make_messages (system prompt : string) : list AzureAIMessage :=
  [mkAzureAIMessage RoleSystem [text_block system];
   mkAzureAIMessage RoleUser [text_block prompt]].

(** The [logger.info] line: [response.get("model", "")] and
    [**response.get("usage", {})], which needs a mapping. *)
Definition log_usage (response : json) : res unit :=
  _ <- py_get response "model" (JStr EmptyString) ;;
  u <- py_get response "usage" (JDict []) ;;
  match u with
  | JDict _ => Ok tt
  | _ => Raise TypeError
  end.

(** [response.get("choices", [{}])[0].get("message", {}).get("content", "")]. *)
Definition extract_content (response : json) : res json :=
  c <- py_get response "choices" (JList [JDict []]) ;;
  x <- py_index0 c ;;
  m <- py_get x "message" (JDict []) ;;
  py_get m "content" (JStr EmptyString).

(** [PromptGenerator.send_request]. *)
Definition prompt_send_request (prompt : string) (parameters : Parameters)
    (complete_response : bool) : M json :=
  let* g := get_gen in
  let msgs := make_messages (system_message g) prompt in
  let* data := liftM (build_request msgs None parameters) in
  let* _ := emit (EBuild data) in
  let* response := request_url in
  let* _ := liftM (log_usage response) in
  if complete_response then retM response
  else liftM (extract_content response).

(** The [functions] getter: [AttributeError] while [_functions is None]. *)
Definition get_functions : M (list AzureAIFunction) :=
  let* g := get_gen in
  match functions_attr g with
  | None => raiseM AttributeError
  | Some fs => retM fs
  end.

(** The two lines that decode the tool call. *)
Definition extract_arguments (response : json) : res json :=
  c <- py_get response "choices" (JList []) ;;
  x <- py_index0 c ;;
  m <- py_get x "message" (JDict []) ;;
  tool_calls <- py_get m "tool_calls" (JList []) ;;
  t0 <- py_index0 tool_calls ;;
  f <- py_get t0 "function" (JDict []) ;;
  a <- py_get f "arguments" (JDict []) ;;
  json_loads a.

(** [FunctionCallingGenerator.send_request]. *)
Definition fc_send_request (prompt : string) (parameters : Parameters)
    (complete_response : bool) : M json :=
  (* [if self.functions is None: raise AttributeError(...)] *)
  let* _ := get_functions in
  let* g := get_gen in
  let* _ := put_gen (set_system_message
                       (safe_substitute DEFAULT_SYSTEM_MESSAGE "functions" "PromptTemplate") g) in
  let* g1 := get_gen in
  let msgs := make_messages (system_message g1) prompt in
  let* fs := get_functions in
  let tls := map (fun f => mkAzureAITool "function" f) fs in
  let* data := liftM (build_request msgs (Some tls) parameters) in
  let* _ := emit (EBuild data) in
  let* response := request_url in
  let* _ := liftM (log_usage response) in
  if complete_response then retM response
  else liftM (extract_arguments response).

(* ------------------------------------------------------------------------ *)
(** ** [Template.safe_substitute] with several keys, [DEFAULT_PROMPT] and
    [BaseGenerator.__call__] *)

Fixpoint mapping_lookup (k : string) (mapping : list (string * string)) : option string :=
  match mapping with
  | [] => None
  | (k', v) :: t => if String.eqb k k' then Some v else mapping_lookup k t
  end.

(** [Template(s).safe_substitute] with a dict [mapping]: as [safe_substitute_go], with
    the replacement looked up in [mapping]. *)
Fixpoint substitute_go (fuel : nat) (mapping : list (string * string)) (s : string) : string :=
  match fuel with
  | O => s
  | S f =>
      match s with
      | String "$"%char r =>
          match r with
          | String "$"%char r' => String "$"%char (substitute_go f mapping r')
          | String "{"%char r' =>
              match span_ident r' with
              | (String c id, String "}"%char t) =>
                  if is_ident_start c then
                    (match mapping_lookup (String c id) mapping with
                     | Some v => v
                     | None => "${" ++ String c id ++ "}"
                     end) ++ substitute_go f mapping t
                  else String "$"%char (substitute_go f mapping r)
              | _ => String "$"%char (substitute_go f mapping r)
              end
          | _ =>
              match span_ident r with
              | (String c id, t) =>
                  if is_ident_start c then
                    (match mapping_lookup (String c id) mapping with
                     | Some v => v
                     | None => String "$"%char (String c id)
                     end) ++ substitute_go f mapping t
                  else String "$"%char (substitute_go f mapping r)
              | _ => String "$"%char (substitute_go f mapping r)
              end
          end
      | String c r => String c (substitute_go f mapping r)
      | EmptyString => EmptyString
      end
  end.

Definition template_safe_substitute (s : string) (mapping : list (string * string)) : string :=
  substitute_go (String.length s) mapping s.

(** [30*"-"]. *)
Definition dashes : string := "------------------------------".

(** [DEFAULT_PROMPT] of [prompts.py]. *)
Definition DEFAULT_PROMPT : string :=
  nl ++ "    Provided the following context:" ++ nl ++
  "    " ++ dashes ++ nl ++
  "    $context" ++ nl ++
  "    " ++ dashes ++ nl ++
  "    And the following history:" ++ nl ++
  "    $history" ++ nl ++
  "    " ++ dashes ++ nl ++
  "    $prompt" ++ nl.

(** The prompt [__call__] builds. *)
Definition compose_prompt (prompt context history : string) : string :=
  template_safe_substitute DEFAULT_PROMPT
    [("prompt"%string, prompt); ("context"%string, context); ("history"%string, history)].

(** Python's keyword binding: every keyword must name a parameter of the
    callee, otherwise the call raises [TypeError]. *)
Definition keywords_bind (accepted kws : list string) : bool :=
  forallb (fun k => existsb (String.eqb k) accepted) kws.

(** [BaseGenerator.__call__(prompt, streaming, complete_response, **kwds)]:
    it retrieves context and history, composes the prompt and calls
    [self.send_request(prompt, stream=streaming,
    complete_response=complete_response, **kwds)].  [send_keywords] are the
    parameter names of the subclass's [send_request]; [send] is that method
    once its arguments are bound. *)
Definition generator_call (retrieve_context retrieve_history : M string)
    (send_keywords : list string) (send : string -> M json)
    (prompt : string) (kwds : list string) : M json :=
  let* context := retrieve_context in
  let* history := retrieve_history in
  let prompt' := compose_prompt prompt context history in
  if keywords_bind send_keywords ("stream"%string :: "complete_response"%string :: kwds)
  then send prompt'
  else raiseM TypeError.

(** Parameter names of [send_request] in [aistudio_requests/generate.py]
    (both generators) and in [src/generate.py] ([PromptGenerator], and
    [FunctionCallingGenerator], which has no [complete_response]). *)
Definition aistudio_send_keywords : list string :=
  ["prompt"; "parameters"; "complete_response"]%string.
Definition src_prompt_send_keywords : list string :=
  ["prompt_template"; "parameters"; "complete_response"]%string.
Definition src_fc_send_keywords : list string :=
  ["prompt_template"; "parameters"]%string.

(* ------------------------------------------------------------------------ *)
(** ** [src/generate.py] and [src/schemas.py] *)

(** The attributes a generator instance has after [BaseGenerator.__init__]
    and [PromptGenerator.__init__] of [src/generate.py]. *)
Definition instance_attributes : list string :=
  ["aistudio_url"; "aistudio_key"; "_BaseGenerator__system_message";
   "waiting_time"; "http_client"]%string.

(** [self.<name>] for a plain instance attribute. *)
Definition get_attribute (name : string) : res unit :=
  if existsb (String.eqb name) instance_attributes then Ok tt else Raise AttributeError.

(** [src/schemas.py] [PromptTemplate]: both fields [Optional[str]]. *)
Record SrcPromptTemplate := mkSrcPromptTemplate {
  pt_prompt : option string;
  pt_function_name : option string
}.

(** [str(x)] for an [Optional[str]]. *)
Definition py_str_opt (x : option string) : string :=
  match x with Some s => s | None => "None" end.

Definition src_query_request : string :=
  nl ++ "            Based on the theme $prompt, generate a question, a groundtruth answer,"
  ++ " and a answer that has '50%' chance to be correct." ++ nl ++ "        ".

(** [FunctionCallingGenerator.prepare_request] of [src/generate.py]. *)
Definition src_fc_prepare_request (pt : SrcPromptTemplate) : string :=
  template_safe_substitute src_query_request
    [("prompt"%string, py_str_opt (pt_prompt pt));
     ("function_name"%string, py_str_opt (pt_function_name pt))].

(** [PromptGenerator.send_request] of [src/generate.py]; [prepare_request]
    is the subclass's hook; [None] is [JNull]. *)
Definition src_prompt_send_request (prepare_request : M string) (parameters : Parameters)
    (complete_response : bool) : M json :=
  let* prompt_request := prepare_request in
  if String.eqb prompt_request EmptyString then retM JNull
  else
    let* g := get_gen in
    let msgs := make_messages (system_message g) prompt_request in
    let* data := liftM (build_request msgs None parameters) in
    let* _ := emit (EBuild data) in
    (* [url=self.aoai_url] *)
    let* _ := liftM (get_attribute "aoai_url") in
    let* response := request_url in
    let* _ := liftM (log_usage response) in
    if complete_response then retM response
    else liftM (extract_content response).

(** [FunctionCallingGenerator.send_request] of [src/generate.py], up to the
    request.  [default_system_message] is [DEFAULT_SYSTEM_MESSAGE] of
    [src.system_message] and [schema] is [PromptTemplate.model_json_schema()]. *)
Definition src_fc_send_request (default_system_message : string)
    (schema : list (string * json)) (pt : SrcPromptTemplate) (parameters : Parameters)
  : M json :=
  let prompt_request := src_fc_prepare_request pt in
  if String.eqb prompt_request EmptyString then raiseM ValueError
  else
    let* g := get_gen in
    let* _ := put_gen (set_system_message
                         (safe_substitute default_system_message "functions" "PromptTemplate") g) in
    let* g1 := get_gen in
    let msgs := make_messages (system_message g1) prompt_request in
    let tls := [mkAzureAITool "function"
                  (mkAzureAIFunction "PromptTemplate"
                     (Some "Format the prompt in a proper QnA JSON format."%string) schema)] in
    let* data := liftM (build_request msgs (Some tls) parameters) in
    let* _ := emit (EBuild data) in
    let* _ := liftM (get_attribute "aoai_url") in
    let* response := request_url in
    let* _ := liftM (log_usage response) in
    liftM (extract_arguments response).

(* ------------------------------------------------------------------------ *)
(** ** Counting over scripts and logs *)

(** Outcomes [_request_url] retries: a [NetworkError], a 503, a 429. *)
Definition retryable (o : outcome) : bool :=
  match o with
  | ONetworkError => true
  | OTimeout => false
  | OResponse status _ => (status =? 503) || (status =? 429)
  end.

(** The 503 and 429 responses of a script, each adding one to [waiting_time]. *)
Fixpoint count_status (sc : list outcome) : Z :=
  match sc with
  | [] => 0
  | OResponse status _ :: t =>
      (if (status =? 503) || (status =? 429) then 1 else 0) + count_status t
  | _ :: t => count_status t
  end.

Definition is_request (e : event) : bool := match e with ERequest => true | _ => false end.
Definition is_sleep (e : event) : bool := match e with ESleep _ => true | _ => false end.

(* ------------------------------------------------------------------------ *)
(** ** Concrete inputs *)

Definition dq : string := String (ascii_of_nat 34) EmptyString.

(** The text ['{"a":1,"b":2}']. *)
Definition args_ab : string :=
  "{" ++ dq ++ "a" ++ dq ++ ":1," ++ dq ++ "b" ++ dq ++ ":2}".

Definition function_call (fields : list (string * json)) : json :=
  JDict [("function"%string, JDict fields)].

(** [{"choices": [{"message": {"tool_calls": tcs}}]}]. *)
Definition tool_call_response (tcs : list json) : json :=
  JDict [("choices"%string, JList [JDict [("message"%string, JDict [("tool_calls"%string, JList tcs)])]])].

(** [{"choices": [{"message": {"content": v}}]}]. *)
Definition content_response (v : json) : json :=
  JDict [("choices"%string, JList [JDict [("message"%string, JDict [("content"%string, v)])]])].

Definition some_function : AzureAIFunction :=
  mkAzureAIFunction "sum" None [("type"%string, JStr "object")].

(* ------------------------------------------------------------------------ *)
(** ** Lemmas about the model *)

Lemma validate_max_completion_spec (v : Z) :
  validate_max_completion v = true <-> 1 <= v < 128.
Proof.
  unfold validate_max_completion, py_range.
  rewrite existsb_exists. split.
  - intros [x [Hin Heq]]. apply Z.eqb_eq in Heq. subst x.
    apply in_map_iff in Hin. destruct Hin as [k [Hk Hin]].
    apply in_seq in Hin. simpl in Hin. lia.
  - intros Hv. exists v. split; [| apply Z.eqb_refl].
    apply in_map_iff. exists (Z.to_nat (v - 1)). split; [lia |].
    apply in_seq. simpl. lia.
Qed.

Lemma validate_stop_words_spec (v : list string) :
  validate_stop_words v = true <-> (List.length v <= 4)%nat.
Proof.
  unfold validate_stop_words. rewrite negb_true_iff, Z.ltb_ge. lia.
Qed.

(** The request builds exactly when [n], if given, is in [1, 127] and
    [stop], if given, has at most four entries. *)
Lemma validation_errors_nil_iff (p : Parameters) :
  validation_errors p = [] <->
  (forall v, p_n p = Some v -> 1 <= v < 128) /\
  (forall v, p_stop p = Some v -> (List.length v <= 4)%nat).
Proof.
  unfold validation_errors.
  assert (Hn : (match p_n p with
                | Some v => if validate_max_completion v then [] else ["n"%string]
                | None => []
                end = []) <-> (forall v, p_n p = Some v -> 1 <= v < 128)).
  { destruct (p_n p) as [v|]; split.
    - destruct (validate_max_completion v) eqn:Hv.
      + intros _ v' [= <-]. apply validate_max_completion_spec. exact Hv.
      + intros H. discriminate H.
    - intros H. specialize (H v eq_refl).
      apply validate_max_completion_spec in H. rewrite H. reflexivity.
    - intros _ v' H. discriminate H.
    - reflexivity. }
  assert (Hs : (match p_stop p with
                | Some v => if validate_stop_words v then [] else ["stop"%string]
                | None => []
                end = []) <-> (forall v, p_stop p = Some v -> (List.length v <= 4)%nat)).
  { destruct (p_stop p) as [v|]; split.
    - destruct (validate_stop_words v) eqn:Hv.
      + intros _ v' [= <-]. apply validate_stop_words_spec. exact Hv.
      + intros H. discriminate H.
    - intros H. specialize (H v eq_refl).
      apply validate_stop_words_spec in H. rewrite H. reflexivity.
    - intros _ v' H. discriminate H.
    - reflexivity. }
  rewrite <- Hn, <- Hs. split.
  - intros H. apply app_eq_nil in H. exact H.
  - intros [H1 H2]. rewrite H1, H2. reflexivity.
Qed.

Lemma build_request_ok (msgs : list AzureAIMessage) (tls : option (list AzureAITool))
    (p : Parameters) :
  validation_errors p = [] ->
  exists data, build_request msgs tls p = Ok data.
Proof.
  intros H. unfold build_request. rewrite H. eexists. reflexivity.
Qed.

(** [_request_url] only appends to the log. *)
Lemma request_go_log_extends (sc : list outcome) (g : generator) (lg : list event) :
  exists tail, w_log (snd (request_go sc g lg)) = lg ++ tail.
Proof.
  revert g lg. induction sc as [| o sc IH]; intros g lg; simpl.
  - exists []. rewrite app_nil_r. reflexivity.
  - destruct o as [| | status body].
    + destruct (IH g ((lg ++ [ERequest]) ++ [ESleep SleepNetwork])) as [t Ht].
      rewrite Ht. eexists. rewrite <- !app_assoc. reflexivity.
    + eexists. reflexivity.
    + destruct (is_success status); [simpl; eexists; reflexivity |].
      destruct (status =? 503).
      * destruct (IH (set_waiting_time (waiting_time g + 1) g)
                     ((lg ++ [ERequest]) ++ [ESleep SleepUnavailable])) as [t Ht].
        rewrite Ht. eexists. rewrite <- !app_assoc. reflexivity.
      * destruct (status =? 429).
        -- destruct (IH (set_waiting_time (waiting_time g + 1) g)
                       ((lg ++ [ERequest]) ++ [ESleep (SleepThrottle (waiting_time g))]))
             as [t Ht].
           rewrite Ht. eexists. rewrite <- !app_assoc. reflexivity.
        -- simpl. eexists. reflexivity.
Qed.

(** A successful [_request_url] leaves [waiting_time] at [0]. *)
Lemma request_go_ok_resets (sc : list outcome) (g : generator) (lg : list event)
    (r : json) (w' : world) :
  request_go sc g lg = (Ok r, w') -> waiting_time (w_gen w') = 0.
Proof.
  revert g lg. induction sc as [| o sc IH]; intros g lg H; simpl in H.
  - discriminate.
  - destruct o as [| | status body].
    + eapply IH. exact H.
    + discriminate.
    + destruct (is_success status).
      * injection H as _ <-. reflexivity.
      * destruct (status =? 503); [eapply IH; exact H |].
        destruct (status =? 429); [eapply IH; exact H | discriminate].
Qed.

Lemma prompt_send_request_success (prompt : string) (p : Parameters) (complete : bool)
    (g : generator) (lg : list event) (c : Z) (r : json) (rest : list outcome) :
  validation_errors p = [] -> is_success c = true -> log_usage r = Ok tt ->
  fst (prompt_send_request prompt p complete (mkWorld g lg (OResponse c r :: rest))) =
  (if complete then Ok r else extract_content r).
Proof.
  intros Hp Hc Hr.
  unfold prompt_send_request, bindM, get_gen, liftM, emit, request_url, build_request.
  rewrite Hp. simpl. rewrite Hc. simpl. rewrite Hr.
  destruct complete; reflexivity.
Qed.

Lemma fc_send_request_success (prompt : string) (p : Parameters) (complete : bool)
    (g : generator) (fs : list AzureAIFunction) (lg : list event) (c : Z) (r : json)
    (rest : list outcome) :
  functions_attr g = Some fs ->
  validation_errors p = [] -> is_success c = true -> log_usage r = Ok tt ->
  fst (fc_send_request prompt p complete (mkWorld g lg (OResponse c r :: rest))) =
  (if complete then Ok r else extract_arguments r).
Proof.
  intros Hf Hp Hc Hr.
  unfold fc_send_request, get_functions, bindM, get_gen, put_gen, retM, liftM, emit,
    request_url, build_request.
  repeat progress (simpl; rewrite ?Hf, ?Hp, ?Hc, ?Hr).
  destruct complete; reflexivity.
Qed.

Lemma set_waiting_time_same (g : generator) : set_waiting_time (waiting_time g) g = g.
Proof. destruct g; reflexivity. Qed.

(** A prefix of retryable outcomes: one request and one sleep per outcome,
    and [waiting_time] raised by the number of 503 and 429 responses. *)
Lemma request_go_retry_prefix (pre sc : list outcome) (g : generator) (lg : list event) :
  forallb retryable pre = true ->
  exists mid,
    request_go (pre ++ sc) g lg =
      request_go sc (set_waiting_time (waiting_time g + count_status pre) g) (lg ++ mid) /\
    List.length (filter is_request mid) = List.length pre /\
    List.length (filter is_sleep mid) = List.length pre.
Proof.
  revert g lg. induction pre as [| o pre IH]; intros g lg H.
  - exists []. split; [| split; reflexivity].
    simpl app. simpl count_status. rewrite Z.add_0_r, app_nil_r, set_waiting_time_same.
    reflexivity.
  - simpl in H. apply andb_prop in H. destruct H as [Ho Hpre].
    destruct o as [| | status body].
    + destruct (IH g ((lg ++ [ERequest]) ++ [ESleep SleepNetwork]) Hpre) as [mid [E [R S]]].
      exists ([ERequest; ESleep SleepNetwork] ++ mid).
      split; [| simpl; split; f_equal; assumption].
      simpl. rewrite E. rewrite <- !app_assoc. reflexivity.
    + discriminate Ho.
    + simpl in Ho.
      assert (Hs : is_success status = false).
      { apply orb_prop in Ho. unfold is_success.
        destruct Ho as [Ho | Ho]; apply Z.eqb_eq in Ho; subst; reflexivity. }
      destruct (status =? 503) eqn:E503.
      * destruct (IH (set_waiting_time (waiting_time g + 1) g)
                    ((lg ++ [ERequest]) ++ [ESleep SleepUnavailable]) Hpre) as [mid [E [R S]]].
        exists ([ERequest; ESleep SleepUnavailable] ++ mid).
        split; [| simpl; split; f_equal; assumption].
        assert (Hc : count_status (OResponse status body :: pre) = 1 + count_status pre)
          by (cbn [count_status]; rewrite E503; reflexivity).
        rewrite Hc, Z.add_assoc.
        simpl. rewrite Hs, E503. rewrite E. rewrite <- !app_assoc. reflexivity.
      * simpl in Ho.
        destruct (IH (set_waiting_time (waiting_time g + 1) g)
                    ((lg ++ [ERequest]) ++ [ESleep (SleepThrottle (waiting_time g))]) Hpre)
          as [mid [E [R S]]].
        exists ([ERequest; ESleep (SleepThrottle (waiting_time g))] ++ mid).
        split; [| simpl; split; f_equal; assumption].
        assert (Hc : count_status (OResponse status body :: pre) = 1 + count_status pre)
          by (cbn [count_status]; rewrite E503, Ho; reflexivity).
        rewrite Hc, Z.add_assoc.
        simpl. rewrite Hs, E503, Ho. rewrite E. rewrite <- !app_assoc. reflexivity.
Qed.

(** [_request_url] never touches the system message. *)
Lemma request_go_system_message (sc : list outcome) (g : generator) (lg : list event) :
  system_message (w_gen (snd (request_go sc g lg))) = system_message g.
Proof.
  revert g lg. induction sc as [| o sc IH]; intros g lg; simpl; [reflexivity |].
  destruct o as [| | status body]; [apply IH | reflexivity |].
  destruct (is_success status); [reflexivity |].
  destruct (status =? 503); [rewrite IH; reflexivity |].
  destruct (status =? 429); [rewrite IH; reflexivity | reflexivity].
Qed.

Lemma default_system_message_unchanged :
  safe_substitute DEFAULT_SYSTEM_MESSAGE "functions" "PromptTemplate" = DEFAULT_SYSTEM_MESSAGE.
Proof. vm_compute. reflexivity. Qed.

Lemma src_fc_prepare_request_shape (pt : SrcPromptTemplate) :
  src_fc_prepare_request pt =
  (nl ++ "            Based on the theme " ++ py_str_opt (pt_prompt pt) ++
   ", generate a question, a groundtruth answer, and a answer that has '50%' chance to be correct."
   ++ nl ++ "        ")%string.
Proof. reflexivity. Qed.




(* ------------------------------------------------------------------------ *)
(** ** Claims *)

(** C1 (code_bug): [validate_max_completion] tests [value in list(range(1, 128))],
    which stops at 127, while its docstring says "between 1 and 128
    inclusive".  So [n = 128] fails construction with a validation error on
    [n]; through [send_request] the failure comes before any request. *)
Theorem C1_n_128_rejected :
  (forall msgs tls, build_request msgs tls (with_n 128 no_parameters) =
                    Raise (ValidationError ["n"%string])) /\
  (forall prompt complete w,
     prompt_send_request prompt (with_n 128 no_parameters) complete w =
     (Raise (ValidationError ["n"%string]), w)).
Proof.
  split; intros; reflexivity.
Qed.

(** C2: on a freshly constructed generator, three 429 responses and then a
    2xx: the sleeps are [waiting_time ** 1.5] for [waiting_time] = 1, 2, 3,
    four requests are issued, the 2xx body is returned and [waiting_time]
    is 0 afterwards. *)
Theorem C2_throttle_backoff (url key : string) (lg : list event) (b1 b2 b3 body : json)
    (c : Z) (rest : list outcome) :
  is_success c = true ->
  request_url (mkWorld (new_generator url key) lg
                 (OResponse 429 b1 :: OResponse 429 b2 :: OResponse 429 b3 ::
                  OResponse c body :: rest)) =
  (Ok body,
   mkWorld (set_waiting_time 0 (new_generator url key))
     (lg ++ [ERequest; ESleep (SleepThrottle 1); ERequest; ESleep (SleepThrottle 2);
             ERequest; ESleep (SleepThrottle 3); ERequest])
     rest) /\
  waiting_time (set_waiting_time 0 (new_generator url key)) = 0 /\
  map sleep_seconds [SleepThrottle 1; SleepThrottle 2; SleepThrottle 3] =
  [sqrt (IZR (1 ^ 3)); sqrt (IZR (2 ^ 3)); sqrt (IZR (3 ^ 3))].
Proof.
  intros Hc. split; [| split; reflexivity].
  unfold request_url. simpl. rewrite Hc. simpl.
  rewrite <- !app_assoc. reflexivity.
Qed.

Lemma C2_throttle_backoff_witness :
  is_success 200 = true /\
  request_url (mkWorld (new_generator "https://endpoint" "key") []
                 [OResponse 429 JNull; OResponse 429 JNull; OResponse 429 JNull;
                  OResponse 200 (content_response (JStr "42"))]) =
  (Ok (content_response (JStr "42")),
   mkWorld (set_waiting_time 0 (new_generator "https://endpoint" "key"))
     ([] ++ [ERequest; ESleep (SleepThrottle 1); ERequest; ESleep (SleepThrottle 2);
             ERequest; ESleep (SleepThrottle 3); ERequest]) []).
Proof.
  split; [reflexivity |].
  apply (C2_throttle_backoff "https://endpoint" "key" [] JNull JNull JNull
           (content_response (JStr "42")) 200 []).
  reflexivity.
Defined.

(** C3: a non-2xx status other than 503 and 429 raises [HTTPStatusError] at
    once: one request, no sleep, the generator state untouched. *)
Theorem C3_fatal_status_no_retry (g : generator) (lg : list event) (c : Z) (body : json)
    (rest : list outcome) :
  is_success c = false -> c <> 503 -> c <> 429 ->
  request_url (mkWorld g lg (OResponse c body :: rest)) =
  (Raise (HTTPStatusError c), mkWorld g (lg ++ [ERequest]) rest).
Proof.
  intros Hs H503 H429. unfold request_url. simpl. rewrite Hs.
  apply Z.eqb_neq in H503, H429. rewrite H503, H429. reflexivity.
Qed.

Lemma C3_fatal_status_no_retry_witness :
  request_url (mkWorld (new_generator "https://endpoint" "key") []
                 [OResponse 400 JNull; OResponse 200 JNull]) =
  (Raise (HTTPStatusError 400),
   mkWorld (new_generator "https://endpoint" "key") ([] ++ [ERequest]) [OResponse 200 JNull]).
Proof.
  apply C3_fatal_status_no_retry; [reflexivity | discriminate | discriminate].
Defined.

(** C4: a 503 then a 2xx: one sleep of 60 seconds, two requests, the 2xx
    body returned, [waiting_time] 0 afterwards. *)
Theorem C4_unavailable_then_success (g : generator) (lg : list event) (b0 body : json)
    (c : Z) (rest : list outcome) :
  is_success c = true ->
  request_url (mkWorld g lg (OResponse 503 b0 :: OResponse c body :: rest)) =
  (Ok body, mkWorld (set_waiting_time 0 g) (lg ++ [ERequest; ESleep SleepUnavailable; ERequest]) rest)
  /\ sleep_seconds SleepUnavailable = 60%R.
Proof.
  intros Hc. split; [| reflexivity].
  unfold request_url. simpl. rewrite Hc. rewrite <- !app_assoc. reflexivity.
Qed.

Lemma C4_unavailable_then_success_witness :
  request_url (mkWorld (new_generator "https://endpoint" "key") []
                 [OResponse 503 JNull; OResponse 200 (content_response (JStr "42"))]) =
  (Ok (content_response (JStr "42")),
   mkWorld (set_waiting_time 0 (new_generator "https://endpoint" "key"))
     ([] ++ [ERequest; ESleep SleepUnavailable; ERequest]) []) /\
  sleep_seconds SleepUnavailable = 60%R.
Proof.
  apply C4_unavailable_then_success. reflexivity.
Defined.

(** C5 (counterexample): a function-calling generator whose [functions] was
    set to the empty list passes the guard, builds the request and sends it;
    the call does not fail with a configuration error. *)
Lemma C5_empty_functions_sent :
  let w := mkWorld (set_functions [] (new_generator "https://endpoint" "key")) []
             [OResponse 200 (tool_call_response
                               [function_call [("arguments"%string, JStr args_ab)]])] in
  fst (fc_send_request "How much is 2 + 2?" no_parameters false w) =
    Ok (JDict [("a"%string, JInt 1); ("b"%string, JInt 2)]) /\
  In ERequest (w_log (snd (fc_send_request "How much is 2 + 2?" no_parameters false w))).
Proof.
  split; [vm_compute; reflexivity |].
  vm_compute. right. left. reflexivity.
Qed.

(** C5 (amended): while no tool declarations are configured ([_functions]
    is [None]: never set, or deleted), [send_request] raises [AttributeError]
    before anything else: no request object, no HTTP request, the generator
    unchanged. *)
Theorem C5_unset_functions_raise (prompt : string) (p : Parameters) (complete : bool)
    (w : world) :
  functions_attr (w_gen w) = None ->
  fc_send_request prompt p complete w = (Raise AttributeError, w).
Proof.
  intros H. unfold fc_send_request, get_functions, bindM, get_gen, raiseM.
  rewrite H. reflexivity.
Qed.

Lemma C5_unset_functions_raise_witness :
  fc_send_request "How much is 2 + 2?" no_parameters false
    (mkWorld (del_functions (set_functions [some_function] (new_generator "https://endpoint" "key")))
       [] [OResponse 200 JNull]) =
  (Raise AttributeError,
   mkWorld (del_functions (set_functions [some_function] (new_generator "https://endpoint" "key")))
     [] [OResponse 200 JNull]).
Proof.
  apply C5_unset_functions_raise. reflexivity.
Defined.




(** C7 (counterexample): a successful response whose [choices] is the
    empty list raises [IndexError] in plain mode: the content field is
    absent, and no empty string is returned. *)
Lemma C7_empty_choices_raise :
  fst (prompt_send_request "Test Template" no_parameters false
         (mkWorld (new_generator "https://endpoint" "key") []
            [OResponse 200 (JDict [("choices"%string, JList [])])])) = Raise IndexError.
Proof.
  reflexivity.
Qed.

(** C7 (amended): for a successful response [r] (a dict whose [usage], if
    any, is a dict), plain mode with [complete_response=true] returns [r]
    unmodified; with [complete_response=false] it returns the value at
    [choices[0].message.content] as it is (["42"] for the example), and [""]
    when the [choices] key is absent, or when [choices[0]] is a dict without
    [message], or its message dict has no [content]. *)
Theorem C7_plain_content (prompt : string) (p : Parameters) (g : generator)
    (lg : list event) (c : Z) (r : json) (rest : list outcome) :
  validation_errors p = [] -> is_success c = true -> log_usage r = Ok tt ->
  fst (prompt_send_request prompt p true (mkWorld g lg (OResponse c r :: rest))) = Ok r /\
  fst (prompt_send_request prompt p false (mkWorld g lg (OResponse c r :: rest))) =
    extract_content r /\
  extract_content (content_response (JStr "42")) = Ok (JStr "42") /\
  (forall kvs, dict_lookup "choices" kvs = None ->
     extract_content (JDict kvs) = Ok (JStr EmptyString)) /\
  (forall kvs x more,
     dict_lookup "choices" kvs = Some (JList (JDict x :: more)) ->
     dict_lookup "message" x = None ->
     extract_content (JDict kvs) = Ok (JStr EmptyString)) /\
  (forall kvs x more m,
     dict_lookup "choices" kvs = Some (JList (JDict x :: more)) ->
     dict_lookup "message" x = Some (JDict m) ->
     extract_content (JDict kvs) =
       Ok (match dict_lookup "content" m with Some v => v | None => JStr EmptyString end)).
Proof.
  intros Hp Hc Hr.
  split; [exact (prompt_send_request_success prompt p true g lg c r rest Hp Hc Hr) |].
  split; [exact (prompt_send_request_success prompt p false g lg c r rest Hp Hc Hr) |].
  split; [reflexivity |].
  split; [intros kvs H; unfold extract_content; simpl; rewrite H; reflexivity |].
  split.
  - intros kvs x more H Hm. unfold extract_content. simpl. rewrite H. simpl.
    rewrite Hm. reflexivity.
  - intros kvs x more m H Hm. unfold extract_content. simpl. rewrite H. simpl.
    rewrite Hm. simpl. destruct (dict_lookup "content" m); reflexivity.
Qed.

Lemma C7_plain_content_witness :
  fst (prompt_send_request "Test Template" no_parameters true
         (mkWorld (new_generator "https://endpoint" "key") []
            [OResponse 200 (content_response (JStr "42"))])) = Ok (content_response (JStr "42")) /\
  fst (prompt_send_request "Test Template" no_parameters false
         (mkWorld (new_generator "https://endpoint" "key") []
            [OResponse 200 (content_response (JStr "42"))])) =
    extract_content (content_response (JStr "42")) /\
  extract_content (content_response (JStr "42")) = Ok (JStr "42") /\
  (forall kvs, dict_lookup "choices" kvs = None ->
     extract_content (JDict kvs) = Ok (JStr EmptyString)) /\
  (forall kvs x more,
     dict_lookup "choices" kvs = Some (JList (JDict x :: more)) ->
     dict_lookup "message" x = None ->
     extract_content (JDict kvs) = Ok (JStr EmptyString)) /\
  (forall kvs x more m,
     dict_lookup "choices" kvs = Some (JList (JDict x :: more)) ->
     dict_lookup "message" x = Some (JDict m) ->
     extract_content (JDict kvs) =
       Ok (match dict_lookup "content" m with Some v => v | None => JStr EmptyString end)).
Proof.
  apply C7_plain_content; reflexivity.
Defined.

(** C8 (code_bug): [_stream_url] documents that it yields [str] chunks, but
    after a 503, a 429, or a network error (at opening or mid-flight) it
    yields the async generator object [self._stream_url(url, method, data)]
    itself; no further request is issued, so the retry is not re-entered. *)
Theorem C8_stream_yields_generator_object (g : generator) (lg : list event) :
  stream_url (SResponse 503 [] None) g lg =
    ([RetryStream], None, set_waiting_time 1 g, lg ++ [ERequest; ESleep SleepUnavailable]) /\
  stream_url (SResponse 429 [] None) g lg =
    ([RetryStream], None, set_waiting_time 1 g, lg ++ [ERequest; ESleep (SleepThrottle 0)]) /\
  stream_url (SResponse 200 ["Hel"%string; "lo"%string] (Some FaultNetwork)) g lg =
    ([Chunk "Hel"; Chunk "lo"; RetryStream], None, set_waiting_time 0 g,
     lg ++ [ERequest; ESleep SleepNetwork]) /\
  existsb (fun i => negb (is_chunk i)) [RetryStream] = true.
Proof.
  unfold stream_url. simpl. rewrite <- !app_assoc. repeat split.
Qed.

(** C9: [waiting_time] starts at 1; every successful [_request_url] leaves
    it at 0; so the next 429 on the instance sleeps [0 ** 1.5 = 0] seconds. *)
Theorem C9_first_throttle_after_success (url key : string) (w w' : world) (r : json) :
  request_url w = (Ok r, w') ->
  waiting_time (new_generator url key) = 1 /\
  waiting_time (w_gen w') = 0 /\
  (forall b rest, exists res w'' tail,
     request_url (mkWorld (w_gen w') (w_log w') (OResponse 429 b :: rest)) = (res, w'') /\
     w_log w'' = w_log w' ++ [ERequest; ESleep (SleepThrottle 0)] ++ tail) /\
  sleep_seconds (SleepThrottle 0) = 0%R.
Proof.
  intros H. unfold request_url in H.
  pose proof (request_go_ok_resets _ _ _ _ _ H) as H0.
  split; [reflexivity |]. split; [exact H0 |]. split.
  - intros b rest. unfold request_url. simpl. rewrite H0.
    destruct (request_go_log_extends rest (set_waiting_time (0 + 1) (w_gen w'))
                ((w_log w' ++ [ERequest]) ++ [ESleep (SleepThrottle 0)])) as [t Ht].
    destruct (request_go rest (set_waiting_time (0 + 1) (w_gen w'))
                ((w_log w' ++ [ERequest]) ++ [ESleep (SleepThrottle 0)])) as [res w''] eqn:E.
    exists res, w'', t. split; [reflexivity |].
    simpl in Ht. rewrite Ht. rewrite <- !app_assoc. reflexivity.
  - unfold sleep_seconds. simpl. apply sqrt_0.
Qed.

Lemma C9_first_throttle_after_success_witness :
  waiting_time (new_generator "https://endpoint" "key") = 1 /\
  waiting_time (w_gen (snd (request_url (mkWorld (new_generator "https://endpoint" "key") []
                                           [OResponse 200 JNull])))) = 0 /\
  (forall b rest, exists res w'' tail,
     request_url (mkWorld (w_gen (snd (request_url (mkWorld (new_generator "https://endpoint" "key") []
                                                      [OResponse 200 JNull]))))
                    (w_log (snd (request_url (mkWorld (new_generator "https://endpoint" "key") []
                                                [OResponse 200 JNull]))))
                    (OResponse 429 b :: rest)) = (res, w'') /\
     w_log w'' = w_log (snd (request_url (mkWorld (new_generator "https://endpoint" "key") []
                                            [OResponse 200 JNull])))
                 ++ [ERequest; ESleep (SleepThrottle 0)] ++ tail) /\
  sleep_seconds (SleepThrottle 0) = 0%R.
Proof.
  apply (C9_first_throttle_after_success "https://endpoint" "key"
           (mkWorld (new_generator "https://endpoint" "key") [] [OResponse 200 JNull])
           (snd (request_url (mkWorld (new_generator "https://endpoint" "key") []
                                [OResponse 200 JNull])))
           JNull).
  reflexivity.
Defined.

(** C10: the [""] fallback needs the [choices] key to be absent: a
    [choices] that is an empty list raises [IndexError] in plain mode, and
    the function-calling path raises [IndexError] when [choices] is absent
    or empty. *)
Theorem C10_empty_choices_index_error (prompt : string) (p : Parameters) (g : generator)
    (fs : list AzureAIFunction) (lg : list event) (c : Z) (kvs : list (string * json))
    (rest : list outcome) :
  validation_errors p = [] -> is_success c = true -> log_usage (JDict kvs) = Ok tt ->
  (dict_lookup "choices" kvs = Some (JList []) ->
   fst (prompt_send_request prompt p false (mkWorld g lg (OResponse c (JDict kvs) :: rest))) =
   Raise IndexError) /\
  (functions_attr g = Some fs ->
   dict_lookup "choices" kvs = None \/ dict_lookup "choices" kvs = Some (JList []) ->
   fst (fc_send_request prompt p false (mkWorld g lg (OResponse c (JDict kvs) :: rest))) =
   Raise IndexError).
Proof.
  intros Hp Hc Hr. split.
  - intros H. rewrite (prompt_send_request_success prompt p false g lg c _ rest Hp Hc Hr).
    unfold extract_content. simpl. rewrite H. reflexivity.
  - intros Hf H. rewrite (fc_send_request_success prompt p false g fs lg c _ rest Hf Hp Hc Hr).
    unfold extract_arguments. simpl.
    destruct H as [H | H]; rewrite H; reflexivity.
Qed.

Lemma C10_empty_choices_index_error_witness :
  (dict_lookup "choices" [("choices"%string, JList [])] = Some (JList []) ->
   fst (prompt_send_request "Test Template" no_parameters false
          (mkWorld (set_functions [some_function] (new_generator "https://endpoint" "key")) []
             [OResponse 200 (JDict [("choices"%string, JList [])])])) = Raise IndexError) /\
  (functions_attr (set_functions [some_function] (new_generator "https://endpoint" "key")) =
     Some [some_function] ->
   dict_lookup "choices" [("choices"%string, JList [])] = None \/
   dict_lookup "choices" [("choices"%string, JList [])] = Some (JList []) ->
   fst (fc_send_request "Test Template" no_parameters false
          (mkWorld (set_functions [some_function] (new_generator "https://endpoint" "key")) []
             [OResponse 200 (JDict [("choices"%string, JList [])])])) = Raise IndexError).
Proof.
  apply C10_empty_choices_index_error; reflexivity.
Defined.

(* ------------------------------------------------------------------------ *)
(** ** Further properties of the code *)

(** X1: [_request_url] retries any run of network errors, 503 and 429
    responses (one request and one sleep each) until a 2xx response, which it
    returns with [waiting_time] reset to 0. *)
Theorem X1_request_url_retries_until_success (g : generator) (lg : list event)
    (pre : list outcome) (status : Z) (body : json) (rest : list outcome) :
  forallb retryable pre = true -> is_success status = true ->
  exists mid,
    request_url (mkWorld g lg (pre ++ OResponse status body :: rest)) =
      (Ok body, mkWorld (set_waiting_time 0 g) (lg ++ mid ++ [ERequest]) rest) /\
    List.length (filter is_request mid) = List.length pre /\
    List.length (filter is_sleep mid) = List.length pre.
Proof.
  intros Hpre Hs.
  destruct (request_go_retry_prefix pre (OResponse status body :: rest) g lg Hpre)
    as [mid [E [R S]]].
  exists mid. split; [| split; assumption].
  unfold request_url. cbn [w_script w_gen w_log]. rewrite E.
  cbn [request_go]. rewrite Hs. rewrite <- app_assoc. reflexivity.
Qed.

Lemma X1_request_url_retries_until_success_witness :
  exists mid,
    request_url (mkWorld (new_generator "u" "k") []
                   ([ONetworkError; OResponse 503 JNull; OResponse 429 JNull] ++
                    OResponse 200 (JInt 1) :: [])) =
      (Ok (JInt 1), mkWorld (set_waiting_time 0 (new_generator "u" "k")) ([] ++ mid ++ [ERequest]) []) /\
    List.length (filter is_request mid) = 3%nat /\
    List.length (filter is_sleep mid) = 3%nat.
Proof.
  apply (X1_request_url_retries_until_success (new_generator "u" "k") []
           [ONetworkError; OResponse 503 JNull; OResponse 429 JNull] 200 (JInt 1) []);
    reflexivity.
Defined.

(** X2: a network error is retried after a half-second sleep and leaves the
    generator, so [waiting_time], untouched. *)
Theorem X2_network_errors_keep_counter (n : nat) (g : generator) (lg : list event)
    (sc : list outcome) :
  request_url (mkWorld g lg (repeat ONetworkError n ++ sc)) =
    request_url (mkWorld g (lg ++ concat (repeat [ERequest; ESleep SleepNetwork] n)) sc) /\
  sleep_seconds SleepNetwork = (1 / 2)%R.
Proof.
  split; [| reflexivity].
  unfold request_url. cbn [w_script w_gen w_log].
  revert lg. induction n as [| n IH]; intros lg.
  - simpl. rewrite app_nil_r. reflexivity.
  - simpl repeat. cbn [app request_go]. rewrite IH.
    simpl concat. rewrite <- !app_assoc. reflexivity.
Qed.

(** X3: the 429 back-off argument is the [waiting_time] the request started
    with plus the number of 503 and 429 responses since, network errors not
    counted; the sleep lasts its power 3/2. *)
Theorem X3_throttle_sleep_argument (g : generator) (lg : list event)
    (pre : list outcome) (body : json) (rest : list outcome) :
  forallb retryable pre = true ->
  exists mid tail,
    w_log (snd (request_url (mkWorld g lg (pre ++ OResponse 429 body :: rest)))) =
      lg ++ mid ++ [ERequest; ESleep (SleepThrottle (waiting_time g + count_status pre))] ++ tail /\
    sleep_seconds (SleepThrottle (waiting_time g + count_status pre)) =
      sqrt (IZR ((waiting_time g + count_status pre) ^ 3)).
Proof.
  intros Hpre.
  destruct (request_go_retry_prefix pre (OResponse 429 body :: rest) g lg Hpre)
    as [mid [E _]].
  unfold request_url. cbn [w_script w_gen w_log]. rewrite E.
  cbn [request_go is_success Z.leb Z.ltb Z.compare Pos.compare Pos.compare_cont Z.eqb Pos.eqb
       andb orb negb].
  match goal with
  | |- context [request_go rest ?G ?L] =>
      destruct (request_go_log_extends rest G L) as [t Ht]
  end.
  exists mid, t. rewrite Ht. split; [| reflexivity].
  rewrite <- !app_assoc. reflexivity.
Qed.

Lemma X3_throttle_sleep_argument_witness :
  exists mid tail,
    w_log (snd (request_url (mkWorld (new_generator "u" "k") []
                               ([OResponse 503 JNull; ONetworkError] ++
                                OResponse 429 JNull :: [OResponse 200 JNull])))) =
      [] ++ mid ++ [ERequest; ESleep (SleepThrottle (1 + 1))] ++ tail /\
    sleep_seconds (SleepThrottle (1 + 1)) = sqrt (IZR ((1 + 1) ^ 3)).
Proof.
  apply (X3_throttle_sleep_argument (new_generator "u" "k") []
           [OResponse 503 JNull; ONetworkError] JNull [OResponse 200 JNull]).
  reflexivity.
Defined.

(** X4: a timeout is not retried: after any retryable prefix it raises
    [TimeoutException] at once, keeping the raised [waiting_time]. *)
Theorem X4_timeout_not_retried (g : generator) (lg : list event)
    (pre : list outcome) (rest : list outcome) :
  forallb retryable pre = true ->
  exists mid,
    request_url (mkWorld g lg (pre ++ OTimeout :: rest)) =
      (Raise TimeoutException,
       mkWorld (set_waiting_time (waiting_time g + count_status pre) g)
         (lg ++ mid ++ [ERequest]) rest) /\
    List.length (filter is_request mid) = List.length pre.
Proof.
  intros Hpre.
  destruct (request_go_retry_prefix pre (OTimeout :: rest) g lg Hpre) as [mid [E [R _]]].
  exists mid. split; [| assumption].
  unfold request_url. cbn [w_script w_gen w_log]. rewrite E.
  cbn [request_go]. rewrite <- app_assoc. reflexivity.
Qed.

Lemma X4_timeout_not_retried_witness :
  exists mid,
    request_url (mkWorld (new_generator "u" "k") [] ([OResponse 503 JNull] ++ OTimeout :: [])) =
      (Raise TimeoutException,
       mkWorld (set_waiting_time (1 + 1) (new_generator "u" "k")) ([] ++ mid ++ [ERequest]) []) /\
    List.length (filter is_request mid) = 1%nat.
Proof.
  apply (X4_timeout_not_retried (new_generator "u" "k") [] [OResponse 503 JNull] []).
  reflexivity.
Defined.

(** X5: any other non-2xx status (neither 503 nor 429) raises
    [HTTPStatusError] without retrying, and [waiting_time] keeps the value the
    earlier 503 and 429 responses raised it to: only a 2xx resets it. *)
Theorem X5_fatal_status_keeps_counter (g : generator) (lg : list event)
    (pre : list outcome) (status : Z) (body : json) (rest : list outcome) :
  forallb retryable pre = true -> is_success status = false ->
  status <> 503 -> status <> 429 ->
  exists mid,
    request_url (mkWorld g lg (pre ++ OResponse status body :: rest)) =
      (Raise (HTTPStatusError status),
       mkWorld (set_waiting_time (waiting_time g + count_status pre) g)
         (lg ++ mid ++ [ERequest]) rest).
Proof.
  intros Hpre Hs H503 H429.
  destruct (request_go_retry_prefix pre (OResponse status body :: rest) g lg Hpre)
    as [mid [E _]].
  exists mid.
  unfold request_url. cbn [w_script w_gen w_log]. rewrite E.
  cbn [request_go]. rewrite Hs.
  apply Z.eqb_neq in H503. apply Z.eqb_neq in H429. rewrite H503, H429.
  rewrite <- app_assoc. reflexivity.
Qed.

Lemma X5_fatal_status_keeps_counter_witness :
  exists mid,
    request_url (mkWorld (new_generator "u" "k") []
                   ([OResponse 429 JNull; OResponse 503 JNull] ++ OResponse 500 JNull :: [])) =
      (Raise (HTTPStatusError 500),
       mkWorld (set_waiting_time (1 + 2) (new_generator "u" "k")) ([] ++ mid ++ [ERequest]) []).
Proof.
  apply (X5_fatal_status_keeps_counter (new_generator "u" "k") []
           [OResponse 429 JNull; OResponse 503 JNull] 500 JNull []);
    first [reflexivity | discriminate].
Defined.

(** [PromptGenerator.send_request] once the request is built. *)
Lemma prompt_send_request_built (prompt : string) (p : Parameters) (complete : bool)
    (g : generator) (lg : list event) (sc : list outcome) (data : AzureAIRequest) :
  build_request (make_messages (system_message g) prompt) None p = Ok data ->
  prompt_send_request prompt p complete (mkWorld g lg sc) =
  match request_go sc g (lg ++ [EBuild data]) with
  | (Ok response, w') =>
      match log_usage response with
      | Ok _ => (if complete then Ok response else extract_content response, w')
      | Raise e => (Raise e, w')
      end
  | (Raise e, w') => (Raise e, w')
  end.
Proof.
  intros Hb.
  unfold prompt_send_request, bindM, get_gen, liftM, emit, request_url.
  cbn [w_gen w_log w_script]. rewrite Hb. cbn [w_gen w_log w_script].
  destruct (request_go sc g (lg ++ [EBuild data])) as [[r | e] w'];
    [| reflexivity].
  destruct (log_usage r); [| reflexivity].
  destruct complete; reflexivity.
Qed.

(** [FunctionCallingGenerator.send_request] once the request is built. *)
Lemma fc_send_request_built (prompt : string) (p : Parameters) (complete : bool)
    (g : generator) (fs : list AzureAIFunction) (lg : list event) (sc : list outcome)
    (data : AzureAIRequest) :
  functions_attr g = Some fs ->
  build_request (make_messages DEFAULT_SYSTEM_MESSAGE prompt)
    (Some (map (fun f => mkAzureAITool "function" f) fs)) p = Ok data ->
  fc_send_request prompt p complete (mkWorld g lg sc) =
  match request_go sc (set_system_message DEFAULT_SYSTEM_MESSAGE g) (lg ++ [EBuild data]) with
  | (Ok response, w') =>
      match log_usage response with
      | Ok _ => (if complete then Ok response else extract_arguments response, w')
      | Raise e => (Raise e, w')
      end
  | (Raise e, w') => (Raise e, w')
  end.
Proof.
  intros Hf Hb.
  unfold fc_send_request, get_functions, bindM, get_gen, put_gen, retM, liftM, emit,
    request_url.
  cbn [w_gen w_log w_script]. rewrite Hf. cbn [w_gen w_log w_script].
  rewrite default_system_message_unchanged. cbn [system_message set_system_message functions_attr].
  rewrite Hf. cbn [w_gen w_log w_script].
  change (mkGenerator (aistudio_url g) (aistudio_key g) DEFAULT_SYSTEM_MESSAGE (waiting_time g)
            (functions_attr g)) with (set_system_message DEFAULT_SYSTEM_MESSAGE g).
  rewrite Hb.
  destruct (request_go sc (set_system_message DEFAULT_SYSTEM_MESSAGE g) (lg ++ [EBuild data]))
    as [[r | e] w']; [| reflexivity].
  destruct (log_usage r); [| reflexivity].
  destruct complete; reflexivity.
Qed.

(** X6: [AzureAIRequest(...)] validates exactly when [n], if given, is in
    [1, 127] and [stop], if given, has at most four words; the model keeps
    the messages, tools, [n] and [stop] it was given and fills the defaults
    ([max_tokens] 4096, [stream] false, [response_format] text); a rejected
    request reports its failing fields, [n] before [stop]. *)
Theorem X6_build_request_validation (msgs : list AzureAIMessage)
    (tls : option (list AzureAITool)) (p : Parameters) :
  ((exists data, build_request msgs tls p = Ok data) <->
     (forall v, p_n p = Some v -> 1 <= v <= 127) /\
     (forall v, p_stop p = Some v -> (List.length v <= 4)%nat)) /\
  (forall data, build_request msgs tls p = Ok data ->
     messages data = msgs /\ tools data = tls /\ n data = p_n p /\ stop data = p_stop p /\
     max_tokens data = match p_max_tokens p with Some m => m | None => 4096 end /\
     stream data = match p_stream p with Some b => b | None => false end /\
     response_format data = match p_response_format p with Some f => f | None => FormatText end) /\
  (forall e, build_request msgs tls p = Raise e ->
     validation_errors p <> [] /\ e = ValidationError (validation_errors p)) /\
  (forall v s, p_n p = Some v -> p_stop p = Some s ->
     ~ (1 <= v <= 127) -> (4 < List.length s)%nat ->
     build_request msgs tls p = Raise (ValidationError ["n"%string; "stop"%string])).
Proof.
  split; [| split; [| split]].
  - split.
    + intros [data Hd]. unfold build_request in Hd.
      destruct (validation_errors p) eqn:E; [| discriminate].
      apply validation_errors_nil_iff in E. destruct E as [E1 E2].
      split; [intros v Hv; specialize (E1 v Hv); lia | exact E2].
    + intros [H1 H2]. apply build_request_ok. apply validation_errors_nil_iff.
      split; [intros v Hv; specialize (H1 v Hv); lia | exact H2].
  - intros data Hd. unfold build_request in Hd.
    destruct (validation_errors p); [| discriminate].
    injection Hd as <-. repeat split.
  - intros e He. unfold build_request in He.
    destruct (validation_errors p) as [| x l]; [discriminate |].
    injection He as <-. split; [discriminate | reflexivity].
  - intros v s Hn Hs Hv Hl. unfold build_request, validation_errors.
    rewrite Hn, Hs.
    assert (Ev : validate_max_completion v = false).
    { destruct (validate_max_completion v) eqn:E; [| reflexivity].
      apply validate_max_completion_spec in E. lia. }
    assert (Es : validate_stop_words s = false).
    { destruct (validate_stop_words s) eqn:E; [| reflexivity].
      apply validate_stop_words_spec in E. lia. }
    rewrite Ev, Es. reflexivity.
Qed.

(** X7: invalid parameters stop both [send_request]s before any request:
    the plain generator leaves everything as it was; the function-calling
    one has only reset its system message. *)
Theorem X7_invalid_parameters_fail_fast (prompt : string) (p : Parameters) (complete : bool)
    (g : generator) (fs : list AzureAIFunction) (lg : list event) (sc : list outcome) :
  validation_errors p <> [] -> functions_attr g = Some fs ->
  prompt_send_request prompt p complete (mkWorld g lg sc) =
    (Raise (ValidationError (validation_errors p)), mkWorld g lg sc) /\
  fc_send_request prompt p complete (mkWorld g lg sc) =
    (Raise (ValidationError (validation_errors p)),
     mkWorld (set_system_message DEFAULT_SYSTEM_MESSAGE g) lg sc).
Proof.
  intros Hp Hf.
  destruct (validation_errors p) as [| x l] eqn:E; [contradiction |].
  split.
  - unfold prompt_send_request, bindM, get_gen, liftM, build_request.
    cbn [w_gen]. rewrite E. reflexivity.
  - unfold fc_send_request, get_functions, bindM, get_gen, put_gen, retM, liftM,
      build_request.
    cbn [w_gen w_log w_script]. rewrite Hf. cbn [w_gen w_log w_script].
    rewrite default_system_message_unchanged. cbn [system_message set_system_message functions_attr].
    rewrite Hf. rewrite E. reflexivity.
Qed.

Lemma X7_invalid_parameters_fail_fast_witness :
  prompt_send_request "Hi" (with_n 128 no_parameters) false
    (mkWorld (set_functions [some_function] (new_generator "u" "k")) [] [OResponse 200 JNull]) =
    (Raise (ValidationError ["n"%string]),
     mkWorld (set_functions [some_function] (new_generator "u" "k")) [] [OResponse 200 JNull]) /\
  fc_send_request "Hi" (with_n 128 no_parameters) false
    (mkWorld (set_functions [some_function] (new_generator "u" "k")) [] [OResponse 200 JNull]) =
    (Raise (ValidationError ["n"%string]),
     mkWorld (set_system_message DEFAULT_SYSTEM_MESSAGE
                (set_functions [some_function] (new_generator "u" "k"))) [] [OResponse 200 JNull]).
Proof.
  apply (X7_invalid_parameters_fail_fast "Hi" (with_n 128 no_parameters) false
           (set_functions [some_function] (new_generator "u" "k")) [some_function] []
           [OResponse 200 JNull]);
    [vm_compute; discriminate | reflexivity].
Defined.

(** X8: whatever happens after the [functions] check, the function-calling
    [send_request] leaves [DEFAULT_SYSTEM_MESSAGE] as the system message,
    overwriting one the user set. *)
Theorem X8_fc_send_request_resets_system_message (prompt : string) (p : Parameters)
    (complete : bool) (g : generator) (fs : list AzureAIFunction) (lg : list event)
    (sc : list outcome) :
  functions_attr g = Some fs ->
  system_message (w_gen (snd (fc_send_request prompt p complete (mkWorld g lg sc)))) =
    DEFAULT_SYSTEM_MESSAGE.
Proof.
  intros Hf.
  destruct (build_request (make_messages DEFAULT_SYSTEM_MESSAGE prompt)
              (Some (map (fun f => mkAzureAITool "function" f) fs)) p) as [data | e] eqn:Hb.
  - rewrite (fc_send_request_built prompt p complete g fs lg sc data Hf Hb).
    pose proof (request_go_system_message sc (set_system_message DEFAULT_SYSTEM_MESSAGE g)
                  (lg ++ [EBuild data])) as Hs.
    destruct (request_go sc (set_system_message DEFAULT_SYSTEM_MESSAGE g) (lg ++ [EBuild data]))
      as [[r | e] w'].
    + destruct (log_usage r); exact Hs.
    + exact Hs.
  - unfold fc_send_request, get_functions, bindM, get_gen, put_gen, retM, liftM.
    cbn [w_gen w_log w_script]. rewrite Hf. cbn [w_gen w_log w_script].
    rewrite default_system_message_unchanged. cbn [system_message set_system_message functions_attr].
    rewrite Hf. cbn [w_gen w_log w_script]. rewrite Hb. reflexivity.
Qed.

Lemma X8_fc_send_request_resets_system_message_witness :
  system_message (w_gen (snd (fc_send_request "Hi" no_parameters false
     (mkWorld (set_system_message "custom" (set_functions [some_function] (new_generator "u" "k")))
        [] [OResponse 500 JNull])))) = DEFAULT_SYSTEM_MESSAGE.
Proof.
  apply (X8_fc_send_request_resets_system_message "Hi" no_parameters false
           (set_system_message "custom" (set_functions [some_function] (new_generator "u" "k")))
           [some_function] [] [OResponse 500 JNull]).
  reflexivity.
Defined.

(** X10: after any retryable prefix, a 2xx response carrying a mapping
    [usage] (or none) is what both [send_request]s return with
    [complete_response=True]; without it they decode it, the plain one to
    the message content, the function-calling one to the tool call's
    arguments. *)
Theorem X10_send_request_after_retries (prompt : string) (p : Parameters) (g : generator)
    (fs : list AzureAIFunction) (lg : list event) (pre : list outcome) (status : Z)
    (r : json) (rest : list outcome) :
  validation_errors p = [] -> functions_attr g = Some fs ->
  forallb retryable pre = true -> is_success status = true -> log_usage r = Ok tt ->
  (fst (prompt_send_request prompt p true (mkWorld g lg (pre ++ OResponse status r :: rest)))
     = Ok r /\
   fst (prompt_send_request prompt p false (mkWorld g lg (pre ++ OResponse status r :: rest)))
     = extract_content r) /\
  (fst (fc_send_request prompt p true (mkWorld g lg (pre ++ OResponse status r :: rest)))
     = Ok r /\
   fst (fc_send_request prompt p false (mkWorld g lg (pre ++ OResponse status r :: rest)))
     = extract_arguments r).
Proof.
  intros Hp Hf Hpre Hs Hr.
  destruct (build_request_ok (make_messages (system_message g) prompt) None p Hp)
    as [d1 Hb1].
  destruct (build_request_ok (make_messages DEFAULT_SYSTEM_MESSAGE prompt)
              (Some (map (fun f => mkAzureAITool "function" f) fs)) p Hp) as [d2 Hb2].
  split; split;
    first [rewrite (prompt_send_request_built _ _ _ g lg _ d1 Hb1)
          | rewrite (fc_send_request_built _ _ _ g fs lg _ d2 Hf Hb2)];
    match goal with
    | |- context [request_go _ ?G ?L] =>
        destruct (request_go_retry_prefix pre (OResponse status r :: rest) G L Hpre)
          as [mid [E _]]
    end;
    rewrite E; cbn [request_go]; rewrite Hs; rewrite Hr; reflexivity.
Qed.

Lemma X10_send_request_after_retries_witness :
  (fst (prompt_send_request "Hi" no_parameters true
          (mkWorld (set_functions [some_function] (new_generator "u" "k")) []
             ([ONetworkError; OResponse 429 JNull] ++ OResponse 200 (content_response (JStr "ok")) :: [])))
     = Ok (content_response (JStr "ok")) /\
   fst (prompt_send_request "Hi" no_parameters false
          (mkWorld (set_functions [some_function] (new_generator "u" "k")) []
             ([ONetworkError; OResponse 429 JNull] ++ OResponse 200 (content_response (JStr "ok")) :: [])))
     = extract_content (content_response (JStr "ok"))) /\
  (fst (fc_send_request "Hi" no_parameters true
          (mkWorld (set_functions [some_function] (new_generator "u" "k")) []
             ([ONetworkError; OResponse 429 JNull] ++ OResponse 200 (content_response (JStr "ok")) :: [])))
     = Ok (content_response (JStr "ok")) /\
   fst (fc_send_request "Hi" no_parameters false
          (mkWorld (set_functions [some_function] (new_generator "u" "k")) []
             ([ONetworkError; OResponse 429 JNull] ++ OResponse 200 (content_response (JStr "ok")) :: [])))
     = extract_arguments (content_response (JStr "ok"))).
Proof.
  apply (X10_send_request_after_retries "Hi" no_parameters
           (set_functions [some_function] (new_generator "u" "k")) [some_function] []
           [ONetworkError; OResponse 429 JNull] 200 (content_response (JStr "ok")) []);
    vm_compute; reflexivity.
Defined.

(** [log_usage] raises [TypeError] when [usage] is there but not a mapping. *)
Lemma log_usage_type_error (r u : json) :
  py_get r "usage" (JDict []) = Ok u -> (forall kvs, u <> JDict kvs) ->
  log_usage r = Raise TypeError.
Proof.
  intros Hu Hn.
  assert (Hm : exists m, py_get r "model" (JStr EmptyString) = Ok m).
  { destruct r as [| | | | | | kvs]; try discriminate Hu. simpl.
    destruct (dict_lookup "model" kvs); eexists; reflexivity. }
  destruct Hm as [m Hm].
  unfold log_usage. rewrite Hm. cbn [bind_res]. rewrite Hu. cbn [bind_res].
  destruct u; try reflexivity. exfalso. eapply Hn. reflexivity.
Qed.

(** X11: the usage log line runs before the result is returned: a 2xx
    response whose [usage] is not a mapping makes both [send_request]s raise
    [TypeError], also with [complete_response=True]. *)
Theorem X11_usage_not_mapping_type_error (prompt : string) (p : Parameters)
    (complete : bool) (g : generator) (fs : list AzureAIFunction) (lg : list event)
    (status : Z) (r u : json) (rest : list outcome) :
  validation_errors p = [] -> functions_attr g = Some fs -> is_success status = true ->
  py_get r "usage" (JDict []) = Ok u -> (forall kvs, u <> JDict kvs) ->
  fst (prompt_send_request prompt p complete (mkWorld g lg (OResponse status r :: rest)))
    = Raise TypeError /\
  fst (fc_send_request prompt p complete (mkWorld g lg (OResponse status r :: rest)))
    = Raise TypeError.
Proof.
  intros Hp Hf Hs Hu Hn.
  pose proof (log_usage_type_error r u Hu Hn) as Hr.
  destruct (build_request_ok (make_messages (system_message g) prompt) None p Hp)
    as [d1 Hb1].
  destruct (build_request_ok (make_messages DEFAULT_SYSTEM_MESSAGE prompt)
              (Some (map (fun f => mkAzureAITool "function" f) fs)) p Hp) as [d2 Hb2].
  rewrite (prompt_send_request_built _ _ _ g lg _ d1 Hb1).
  rewrite (fc_send_request_built _ _ _ g fs lg _ d2 Hf Hb2).
  cbn [request_go]. rewrite Hs, Hr. split; reflexivity.
Qed.

Lemma X11_usage_not_mapping_type_error_witness :
  fst (prompt_send_request "Hi" no_parameters true
         (mkWorld (set_functions [some_function] (new_generator "u" "k")) []
            [OResponse 200 (JDict [("usage"%string, JNull)])])) = Raise TypeError /\
  fst (fc_send_request "Hi" no_parameters true
         (mkWorld (set_functions [some_function] (new_generator "u" "k")) []
            [OResponse 200 (JDict [("usage"%string, JNull)])])) = Raise TypeError.
Proof.
  apply (X11_usage_not_mapping_type_error "Hi" no_parameters true
           (set_functions [some_function] (new_generator "u" "k")) [some_function] [] 200
           (JDict [("usage"%string, JNull)]) JNull []);
    [reflexivity | reflexivity | reflexivity | reflexivity | discriminate].
Defined.

(** X13: the prompt [__call__] composes puts the prompt, the context and
    the history verbatim into [DEFAULT_PROMPT]: a [$name] inside one of them
    is not substituted again. *)
Theorem X13_compose_prompt_verbatim (prompt context history : string) :
  compose_prompt prompt context history =
  (nl ++ "    Provided the following context:" ++ nl ++
   "    " ++ dashes ++ nl ++
   "    " ++ context ++ nl ++
   "    " ++ dashes ++ nl ++
   "    And the following history:" ++ nl ++
   "    " ++ history ++ nl ++
   "    " ++ dashes ++ nl ++
   "    " ++ prompt ++ nl)%string.
Proof. reflexivity. Qed.

(** X14: [__call__] always passes [stream=] to [send_request], which none of
    the generators' [send_request]s accepts: once context and history are
    retrieved the call raises [TypeError], [send_request] never runs, and no
    call ever returns a value. *)
Theorem X14_call_raises_type_error (retrieve_context retrieve_history : M string)
    (keys : list string) (send : string -> M json) (prompt : string)
    (kwds : list string) (w : world) :
  In keys [aistudio_send_keywords; src_prompt_send_keywords; src_fc_send_keywords] ->
  (forall send', generator_call retrieve_context retrieve_history keys send prompt kwds w =
                 generator_call retrieve_context retrieve_history keys send' prompt kwds w) /\
  (forall v, fst (generator_call retrieve_context retrieve_history keys send prompt kwds w)
             <> Ok v) /\
  (forall c w1 h w2, retrieve_context w = (Ok c, w1) -> retrieve_history w1 = (Ok h, w2) ->
     generator_call retrieve_context retrieve_history keys send prompt kwds w =
       (Raise TypeError, w2)).
Proof.
  intros Hk.
  assert (Hb : keywords_bind keys ("stream"%string :: "complete_response"%string :: kwds)
               = false).
  { unfold keywords_bind. cbn [forallb].
    destruct Hk as [<- | [<- | [<- | []]]]; reflexivity. }
  unfold generator_call, bindM, raiseM. rewrite Hb.
  split; [| split].
  - intros send'.
    destruct (retrieve_context w) as [[c | e] w1]; [| reflexivity].
    destruct (retrieve_history w1) as [[h | e] w2]; reflexivity.
  - intros v.
    destruct (retrieve_context w) as [[c | e] w1]; [| discriminate].
    destruct (retrieve_history w1) as [[h | e] w2]; discriminate.
  - intros c w1 h w2 Hc Hh. rewrite Hc, Hh. reflexivity.
Qed.

Lemma X14_call_raises_type_error_witness :
  (forall send', generator_call (retM "ctx"%string) (retM "hist"%string) aistudio_send_keywords
                   (fun _ => retM JNull) "Hi" [] (mkWorld (new_generator "u" "k") [] []) =
                 generator_call (retM "ctx"%string) (retM "hist"%string) aistudio_send_keywords
                   send' "Hi" [] (mkWorld (new_generator "u" "k") [] [])) /\
  (forall v, fst (generator_call (retM "ctx"%string) (retM "hist"%string) aistudio_send_keywords
                    (fun _ => retM JNull) "Hi" [] (mkWorld (new_generator "u" "k") [] []))
             <> Ok v) /\
  (forall c w1 h w2, retM "ctx"%string (mkWorld (new_generator "u" "k") [] []) = (Ok c, w1) ->
     retM "hist"%string w1 = (Ok h, w2) ->
     generator_call (retM "ctx"%string) (retM "hist"%string) aistudio_send_keywords
       (fun _ => retM JNull) "Hi" [] (mkWorld (new_generator "u" "k") [] []) =
       (Raise TypeError, w2)).
Proof.
  apply (X14_call_raises_type_error (retM "ctx"%string) (retM "hist"%string)
           aistudio_send_keywords (fun _ => retM JNull) "Hi" []
           (mkWorld (new_generator "u" "k") [] [])).
  simpl. left. reflexivity.
Defined.

(** X15: [PromptGenerator.send_request] of [src/generate.py] returns [None]
    at once for an empty prepared prompt; otherwise, with valid parameters, it
    builds the request and then fails with [AttributeError] on
    [self.aoai_url], an attribute no constructor sets, before any HTTP
    request. *)
Theorem X15_src_prompt_send_request_never_requests (s : string) (p : Parameters)
    (complete : bool) (w : world) :
  s <> EmptyString -> validation_errors p = [] ->
  src_prompt_send_request (retM EmptyString) p complete w = (Ok JNull, w) /\
  exists data,
    src_prompt_send_request (retM s) p complete w =
      (Raise AttributeError, mkWorld (w_gen w) (w_log w ++ [EBuild data]) (w_script w)) /\
    messages data = make_messages (system_message (w_gen w)) s.
Proof.
  intros Hs Hp. split; [reflexivity |].
  destruct (build_request_ok (make_messages (system_message (w_gen w)) s) None p Hp)
    as [data Hb].
  exists data.
  assert (Es : String.eqb s EmptyString = false) by (apply String.eqb_neq; exact Hs).
  unfold src_prompt_send_request, bindM, retM, get_gen, liftM, emit.
  rewrite Es. rewrite Hb. split; [reflexivity |].
  unfold build_request in Hb. rewrite Hp in Hb. injection Hb as <-. reflexivity.
Qed.

Lemma X15_src_prompt_send_request_never_requests_witness :
  src_prompt_send_request (retM EmptyString) no_parameters false
    (mkWorld (new_generator "u" "k") [] [OResponse 200 JNull]) =
    (Ok JNull, mkWorld (new_generator "u" "k") [] [OResponse 200 JNull]) /\
  exists data,
    src_prompt_send_request (retM "Hi"%string) no_parameters false
      (mkWorld (new_generator "u" "k") [] [OResponse 200 JNull]) =
      (Raise AttributeError,
       mkWorld (new_generator "u" "k") ([] ++ [EBuild data]) [OResponse 200 JNull]) /\
    messages data = make_messages DEFAULT_SYSTEM_MESSAGE "Hi".
Proof.
  apply (X15_src_prompt_send_request_never_requests "Hi" no_parameters false
           (mkWorld (new_generator "u" "k") [] [OResponse 200 JNull]));
    [discriminate | reflexivity].
Defined.

(** X16: [FunctionCallingGenerator.prepare_request] of [src/generate.py]
    puts [str(prompt)] verbatim into its fixed query (a missing prompt gives
    the text "None"), ignores [function_name], and is never empty. *)
Theorem X16_src_fc_prepare_request_prompt_only (pt : SrcPromptTemplate) :
  src_fc_prepare_request pt =
    (nl ++ "            Based on the theme " ++ py_str_opt (pt_prompt pt) ++
     ", generate a question, a groundtruth answer, and a answer that has '50%' chance to be correct."
     ++ nl ++ "        ")%string /\
  (forall fn, src_fc_prepare_request (mkSrcPromptTemplate (pt_prompt pt) fn) =
              src_fc_prepare_request pt) /\
  src_fc_prepare_request pt <> EmptyString.
Proof.
  split; [apply src_fc_prepare_request_shape |].
  split.
  - intros fn. rewrite !src_fc_prepare_request_shape. reflexivity.
  - rewrite src_fc_prepare_request_shape. discriminate.
Qed.

(** X17: so the [ValueError] branch of [FunctionCallingGenerator.send_request]
    of [src/generate.py] never runs: with valid parameters it sets the system
    message, builds a request with the single "PromptTemplate" tool, and
    fails with [AttributeError] on [self.aoai_url] before any HTTP request. *)
Theorem X17_src_fc_send_request_never_requests (default_system_message : string)
    (schema : list (string * json)) (pt : SrcPromptTemplate) (p : Parameters) (w : world) :
  validation_errors p = [] ->
  exists data,
    src_fc_send_request default_system_message schema pt p w =
      (Raise AttributeError,
       mkWorld (set_system_message
                  (safe_substitute default_system_message "functions" "PromptTemplate") (w_gen w))
         (w_log w ++ [EBuild data]) (w_script w)) /\
    messages data = make_messages
                      (safe_substitute default_system_message "functions" "PromptTemplate")
                      (src_fc_prepare_request pt) /\
    tools data = Some [mkAzureAITool "function"
                         (mkAzureAIFunction "PromptTemplate"
                            (Some "Format the prompt in a proper QnA JSON format."%string) schema)].
Proof.
  intros Hp.
  set (sm := safe_substitute default_system_message "functions" "PromptTemplate").
  set (tls := [mkAzureAITool "function"
                 (mkAzureAIFunction "PromptTemplate"
                    (Some "Format the prompt in a proper QnA JSON format."%string) schema)]).
  destruct (build_request_ok (make_messages sm (src_fc_prepare_request pt)) (Some tls) p Hp)
    as [data Hb].
  exists data.
  assert (Es : String.eqb (src_fc_prepare_request pt) EmptyString = false).
  { rewrite src_fc_prepare_request_shape. reflexivity. }
  unfold src_fc_send_request, bindM, get_gen, put_gen, liftM, emit.
  rewrite Es. fold sm. fold tls. cbn [w_gen w_log w_script system_message set_system_message].
  rewrite Hb. split; [reflexivity |].
  unfold build_request in Hb. rewrite Hp in Hb. injection Hb as <-.
  split; reflexivity.
Qed.

Lemma X17_src_fc_send_request_never_requests_witness :
  exists data,
    src_fc_send_request DEFAULT_SYSTEM_MESSAGE [] (mkSrcPromptTemplate (Some "cats"%string) None)
      no_parameters (mkWorld (new_generator "u" "k") [] [OResponse 200 JNull]) =
      (Raise AttributeError,
       mkWorld (set_system_message
                  (safe_substitute DEFAULT_SYSTEM_MESSAGE "functions" "PromptTemplate")
                  (new_generator "u" "k"))
         ([] ++ [EBuild data]) [OResponse 200 JNull]) /\
    messages data = make_messages
                      (safe_substitute DEFAULT_SYSTEM_MESSAGE "functions" "PromptTemplate")
                      (src_fc_prepare_request (mkSrcPromptTemplate (Some "cats"%string) None)) /\
    tools data = Some [mkAzureAITool "function"
                         (mkAzureAIFunction "PromptTemplate"
                            (Some "Format the prompt in a proper QnA JSON format."%string) [])].
Proof.
  apply (X17_src_fc_send_request_never_requests DEFAULT_SYSTEM_MESSAGE []
           (mkSrcPromptTemplate (Some "cats"%string) None) no_parameters
           (mkWorld (new_generator "u" "k") [] [OResponse 200 JNull])).
  reflexivity.
Defined.
